(** * elmo: utilisation charts (time-series plot and calendar heatmap)

    A shallow embedding of the data-to-visual mapping logic of the two React
    components [TimeSeriesPlot] and [CalendarHeatmap], and the properties of
    the specification checked against it.

    Conventions of the embedding.
    - A JavaScript [Date] is its time value: an integer count of milliseconds
      since the epoch ([Z]).  The invalid date and the [TimeClip] bound of
      8.64e15 ms are outside the model.
    - Local time depends on the host's time zone; every [Date] method takes
      the zone ([TimeZone], ECMAScript's [LocalTZA]) as its first argument.
    - Pixel coordinates and scale values are rationals ([Q]); floating-point
      rounding is abstracted, except in [Float64], where every operation of
      the position scale is rounded as binary64 rounds it.  A number that
      JavaScript would make [NaN] or infinite is [None].
    - [while] loops take a fuel argument and return [None] when it runs out.
    - The d3 functions the components call ([d3.extent], [d3.max],
      [d3.bisector], [d3.scaleTime], [d3.scaleLinear], [d3.scaleSequential])
      are a third-party library; they are written out here as d3 v7 defines
      them. *)

From Stdlib Require Import ZArith QArith Qround Qabs Qpower Lia Lqa.
From Stdlib Require Import List Bool String Ascii.
From Stdlib Require Import DecimalString.
Import ListNotations.
Local Open Scope Z_scope.

(* ================================================================== *)
(** ** ECMAScript time values (ECMA-262, "Date objects") *)
(* ================================================================== *)

Module ES.

Definition msPerDay : Z := 86400000.
Definition msPerHour : Z := 3600000.
Definition msPerMinute : Z := 60000.
Definition msPerSecond : Z := 1000.

Definition Day (t : Z) : Z := t / msPerDay.
Definition TimeWithinDay (t : Z) : Z := t mod msPerDay.

Definition DaysInYear (y : Z) : Z :=
  if negb (y mod 4 =? 0) then 365
  else if negb (y mod 100 =? 0) then 366
  else if negb (y mod 400 =? 0) then 365
  else 366.

Definition DayFromYear (y : Z) : Z :=
  365 * (y - 1970) + (y - 1969) / 4 - (y - 1901) / 100 + (y - 1601) / 400.

Definition TimeFromYear (y : Z) : Z := msPerDay * DayFromYear y.

(** The largest [y] with [TimeFromYear y <= t]: a linear estimate over the
    400-year cycle of 146097 days, off by at most one, then adjusted. *)
Definition YearFromTime (t : Z) : Z :=
  let d := Day t in
  let y := 1970 + (d * 400) / 146097 in
  if DayFromYear (y + 1) <=? d then y + 1
  else if d <? DayFromYear y then y - 1
  else y.

Definition leapOf (y : Z) : Z := if DaysInYear y =? 366 then 1 else 0.

Definition InLeapYear (t : Z) : Z := leapOf (YearFromTime t).

Definition DayWithinYear (t : Z) : Z := Day t - DayFromYear (YearFromTime t).

(** Number of days of the year before month [m] (0 = January). *)
Definition monthStart (m leap : Z) : Z :=
  match m with
  | 0 => 0
  | 1 => 31
  | 2 => 59 + leap
  | 3 => 90 + leap
  | 4 => 120 + leap
  | 5 => 151 + leap
  | 6 => 181 + leap
  | 7 => 212 + leap
  | 8 => 243 + leap
  | 9 => 273 + leap
  | 10 => 304 + leap
  | _ => 334 + leap
  end.

(** Number of days of month [m]. *)
Definition DaysInMonth (m leap : Z) : Z :=
  match m with
  | 1 => 28 + leap
  | 3 | 5 | 8 | 10 => 30
  | _ => 31
  end.

Definition MonthFromTime (t : Z) : Z :=
  let d := DayWithinYear t in
  let leap := InLeapYear t in
  if d <? 31 then 0
  else if d <? 59 + leap then 1
  else if d <? 90 + leap then 2
  else if d <? 120 + leap then 3
  else if d <? 151 + leap then 4
  else if d <? 181 + leap then 5
  else if d <? 212 + leap then 6
  else if d <? 243 + leap then 7
  else if d <? 273 + leap then 8
  else if d <? 304 + leap then 9
  else if d <? 334 + leap then 10
  else 11.

Definition DateFromTime (t : Z) : Z :=
  DayWithinYear t - monthStart (MonthFromTime t) (InLeapYear t) + 1.

Definition WeekDay (t : Z) : Z := (Day t + 4) mod 7.

Definition HourFromTime (t : Z) : Z := (t / msPerHour) mod 24.
Definition MinFromTime (t : Z) : Z := (t / msPerMinute) mod 60.
Definition SecFromTime (t : Z) : Z := (t / msPerSecond) mod 60.
Definition msFromTime (t : Z) : Z := t mod msPerSecond.

Definition MakeTime (hour min sec ms : Z) : Z :=
  hour * msPerHour + min * msPerMinute + sec * msPerSecond + ms.

(** [MakeDay]: the day number of the first of month [month] of [year]
    (months beyond 0..11 carry into the year), plus [date - 1]. *)
Definition MakeDay (year month date : Z) : Z :=
  let ym := year + month / 12 in
  let mn := month mod 12 in
  DayFromYear ym + monthStart mn (leapOf ym) + date - 1.

Definition MakeDate (day time : Z) : Z := day * msPerDay + time.

(** [LocalTZA t isUTC]: the zone's offset from UTC in milliseconds, at the
    instant [t] when [isUTC], at the wall-clock reading [t] otherwise. *)
Definition TimeZone : Type := Z -> bool -> Z.

Definition LocalTime (tz : TimeZone) (t : Z) : Z := t + tz t true.
Definition UTC (tz : TimeZone) (t : Z) : Z := t - tz t false.

End ES.

(* ================================================================== *)
(** ** The [Date] methods the components call *)
(* ================================================================== *)

Module Date.
Import ES.

Definition t : Type := Z.

(** [new Date(year, month, date)] for a year outside 0..99. *)
Definition make (tz : TimeZone) (year month date : Z) : t :=
  UTC tz (MakeDate (MakeDay year month date) (MakeTime 0 0 0 0)).

Definition getTime (d : t) : Z := d.
Definition getDay (tz : TimeZone) (d : t) : Z := WeekDay (LocalTime tz d).
Definition getDate (tz : TimeZone) (d : t) : Z := DateFromTime (LocalTime tz d).
Definition getMonth (tz : TimeZone) (d : t) : Z := MonthFromTime (LocalTime tz d).
Definition getFullYear (tz : TimeZone) (d : t) : Z := YearFromTime (LocalTime tz d).

Definition setDate (tz : TimeZone) (d : t) (dt : Z) : t :=
  let lt := LocalTime tz d in
  UTC tz (MakeDate (MakeDay (YearFromTime lt) (MonthFromTime lt) dt)
                   (TimeWithinDay lt)).

Definition setFullYear (tz : TimeZone) (d : t) (year : Z) : t :=
  let lt := LocalTime tz d in
  UTC tz (MakeDate (MakeDay year (MonthFromTime lt) (DateFromTime lt))
                   (TimeWithinDay lt)).

End Date.

(* ================================================================== *)
(** ** Time zones *)
(* ================================================================== *)

Module Zone.
Import ES.

(** A zone whose clocks never shift: UTC is [fixed 0]. *)
Definition fixed (offset : Z) : TimeZone := fun _ _ => offset.

Definition utc : TimeZone := fixed 0.

(** Day number of the first Sunday on or after day number [n]. *)
Definition sundayOnOrAfter (n : Z) : Z := n + (7 - (n + 4) mod 7) mod 7.

(** America/New_York under the rule in force since 2007: clocks read UTC-5,
    and UTC-4 from 02:00 on the second Sunday of March until 02:00 (daylight
    time) on the first Sunday of November.  A wall-clock reading inside the
    skipped or the repeated hour takes the offset before the transition. *)
Definition usEastern : TimeZone := fun t isUTC =>
  let est := -5 * msPerHour in
  let edt := -4 * msPerHour in
  let y := YearFromTime (if isUTC then t + est else t) in
  let marchDay := sundayOnOrAfter (MakeDay y 2 1) + 7 in
  let novDay := sundayOnOrAfter (MakeDay y 10 1) in
  if isUTC then
    if (MakeDate marchDay (7 * msPerHour) <=? t)
       && (t <? MakeDate novDay (6 * msPerHour)) then edt else est
  else
    if (MakeDate marchDay (3 * msPerHour) <=? t)
       && (t <? MakeDate novDay (2 * msPerHour)) then edt else est.

End Zone.

(* ================================================================== *)
(** ** Strings: decimal output, ISO dates *)
(* ================================================================== *)

Module Str.
Import ES.
Local Open Scope string_scope.
Local Open Scope Z_scope.

(** A template literal's rendering of an integer. *)
Definition ofZ (z : Z) : string := NilZero.string_of_int (Z.to_int z).

Fixpoint zeros (n : nat) : string :=
  match n with O => "" | S n' => String "0" (zeros n') end.

(** [String(n).padStart(width, "0")] for [0 <= n]. *)
Definition pad (width : nat) (n : Z) : string :=
  let s := ofZ n in zeros (width - String.length s) ++ s.

(** [s.split('T')[0]]: the text before the first [T]. *)
Fixpoint beforeT (s : string) : string :=
  match s with
  | EmptyString => EmptyString
  | String c rest => if Ascii.eqb c "T" then EmptyString else String c (beforeT rest)
  end.

(** [d.toISOString().split('T')[0]]: the UTC calendar date, with the
    six-digit signed year outside 0..9999. *)
Definition isoDate (d : Z) : string :=
  let y := YearFromTime d in
  let year :=
    if (0 <=? y) && (y <=? 9999) then pad 4 y
    else if y <? 0 then "-" ++ pad 6 (- y) else "+" ++ pad 6 y in
  year ++ "-" ++ pad 2 (MonthFromTime d + 1) ++ "-" ++ pad 2 (DateFromTime d).

Definition digit (c : ascii) : option Z :=
  let n := Z.of_nat (nat_of_ascii c) in
  if (48 <=? n) && (n <=? 57) then Some (n - 48) else None.

(** Reads exactly [n] decimal digits. *)
Fixpoint digits (n : nat) (acc : Z) (s : string) : option (Z * string) :=
  match n with
  | O => Some (acc, s)
  | S n' =>
      match s with
      | String c rest =>
          match digit c with
          | Some v => digits n' (10 * acc + v) rest
          | None => None
          end
      | EmptyString => None
      end
  end.

Definition expect (c : ascii) (s : string) : option string :=
  match s with
  | String c' rest => if Ascii.eqb c c' then Some rest else None
  | EmptyString => None
  end.

Definition inRange (lo v hi : Z) : bool := (lo <=? v) && (v <=? hi).

(** The zone designator of a date-time: [Z], [+HH:mm], [-HH:mm], or absent
    (local time).  Returns the instant for the wall-clock reading [t]. *)
Definition parseZone (tz : TimeZone) (t : Z) (s : string) : option Z :=
  match s with
  | EmptyString => Some (UTC tz t)
  | String c rest =>
      if Ascii.eqb c "Z" then
        match rest with EmptyString => Some t | _ => None end
      else
        let sign := if Ascii.eqb c "+" then Some 1
                    else if Ascii.eqb c "-" then Some (-1) else None in
        match sign, digits 2 0 rest with
        | Some sg, Some (hh, r1) =>
            match expect ":" r1 with
            | Some r2 =>
                match digits 2 0 r2 with
                | Some (mm, EmptyString) =>
                    if inRange 0 hh 23 && inRange 0 mm 59
                    then Some (t - sg * (hh * msPerHour + mm * msPerMinute))
                    else None
                | _ => None
                end
            | None => None
            end
        | _, _ => None
        end
  end.

(** After [HH:mm]: optional [:ss], optional [.sss], then the zone. *)
Definition parseSeconds (tz : TimeZone) (day hh mm : Z) (s : string) : option Z :=
  let finish sec ms rest :=
    if inRange 0 hh 24 && inRange 0 mm 59 && inRange 0 sec 59
       && (negb (hh =? 24) || ((mm =? 0) && (sec =? 0) && (ms =? 0)))
    then parseZone tz (MakeDate day (MakeTime hh mm sec ms)) rest
    else None in
  match expect ":" s with
  | Some r1 =>
      match digits 2 0 r1 with
      | Some (sec, r2) =>
          match expect "." r2 with
          | Some r3 =>
              match digits 3 0 r3 with
              | Some (ms, r4) => finish sec ms r4
              | None => None
              end
          | None => finish sec 0 r2
          end
      | None => None
      end
  | None => finish 0 0 s
  end.

(** After [T]: [HH:mm], then the rest of the time. *)
Definition parseTime (tz : TimeZone) (day : Z) (s : string) : option Z :=
  match digits 2 0 s with
  | Some (hh, r1) =>
      match expect ":" r1 with
      | Some r2 =>
          match digits 2 0 r2 with
          | Some (mm, r3) => parseSeconds tz day hh mm r3
          | None => None
          end
      | None => None
      end
  | None => None
  end.

(** After the date: nothing (midnight UTC), or [T] and a time. *)
Definition afterDate (tz : TimeZone) (day : Z) (s : string) : option Z :=
  match s with
  | EmptyString => Some (MakeDate day 0)
  | String c rest => if Ascii.eqb c "T" then parseTime tz day rest else None
  end.

(** [Date.parse] on the ECMAScript date-time string format with a
    four-digit year: a date [YYYY], [YYYY-MM] or [YYYY-MM-DD], alone (UTC)
    or followed by [THH:mm[:ss[.sss]]] and a zone designator (local time
    when absent).  The six-digit signed years are not modelled, and any
    other string is left to the implementation by ECMA-262; both are the
    invalid date here, [None]. *)
Definition parse (tz : TimeZone) (s : string) : option Z :=
  match digits 4 0 s with
  | Some (y, r1) =>
      match expect "-" r1 with
      | None => afterDate tz (MakeDay y 0 1) r1
      | Some r2 =>
          match digits 2 0 r2 with
          | Some (m, r3) =>
              if inRange 1 m 12 then
                match expect "-" r3 with
                | None => afterDate tz (MakeDay y (m - 1) 1) r3
                | Some r4 =>
                    match digits 2 0 r4 with
                    | Some (d, r5) =>
                        if inRange 1 d (DaysInMonth (m - 1) (leapOf y))
                        then afterDate tz (MakeDay y (m - 1) d) r5
                        else None
                    | None => None
                    end
                end
              else None
          | None => None
          end
      end
  | None => None
  end.

End Str.

(* ================================================================== *)
(** ** d3: array helpers, bisector, scales *)
(* ================================================================== *)

Module D3.
Local Open Scope Q_scope.

(** A JavaScript number that is finite ([Some]) or not ([None]). *)
Definition number : Type := option Q.

Definition Qlt_bool (a b : Q) : bool := negb (Qle_bool b a).

(** [a / b]: dividing by zero leaves the finite numbers. *)
Definition jsdiv (a b : Q) : number :=
  if Qeq_bool b 0 then None else Some (a / b).

(** [new Date(v)]: the number truncated toward zero. *)
Definition toDate (v : Q) : Z := if Qle_bool 0 v then Qfloor v else Qceiling v.

(** [d3.max(values)]: [undefined] on no value. *)
Definition max (values : list Q) : option Q :=
  fold_left (fun acc v =>
               match acc with
               | None => Some v
               | Some m => if Qlt_bool m v then Some v else Some m
               end) values None.

Definition min (values : list Q) : option Q :=
  fold_left (fun acc v =>
               match acc with
               | None => Some v
               | Some m => if Qlt_bool v m then Some v else Some m
               end) values None.

(** [d3.extent(values)] over dates, an invalid date ([None]) being skipped;
    [[undefined, undefined]] is [None]. *)
Definition extent (values : list (option Z)) : option (Z * Z) :=
  fold_left (fun acc v =>
               match v, acc with
               | None, _ => acc
               | Some x, None => Some (x, x)
               | Some x, Some (lo, hi) =>
                   Some (if (x <? lo)%Z then x else lo, if (hi <? x)%Z then x else hi)
               end) values None.

(** [d3.ascending] on dates: [None] is [NaN]. *)
Definition ascending (a b : option Z) : option Z :=
  match a, b with
  | Some x, Some y => Some (if x <? y then -1 else if y <? x then 1 else 0)%Z
  | _, _ => None
  end.

Definition isNegative (c : option Z) : bool :=
  match c with Some v => (v <? 0)%Z | None => false end.

Section Bisector.
Context {A : Type} (f : A -> option Z).

(** The [do ... while (lo < hi)] loop of [bisector(f).left]. *)
Fixpoint leftLoop (fuel : nat) (a : list A) (x : option Z) (lo hi : nat)
  : option nat :=
  match fuel with
  | O => None
  | S fuel' =>
      let mid := Nat.div2 (lo + hi) in
      let less :=
        match nth_error a mid with
        | Some d => isNegative (ascending (f d) x)
        | None => false
        end in
      let lo' := if less then S mid else lo in
      let hi' := if less then hi else mid in
      if (lo' <? hi')%nat then leftLoop fuel' a x lo' hi' else Some lo'
  end.

(** [d3.bisector(f).left(a, x)]. *)
Definition left (a : list A) (x : option Z) : option nat :=
  let lo := O in
  let hi := List.length a in
  if (lo <? hi)%nat then
    match ascending x x with
    | Some 0%Z => leftLoop hi a x lo hi
    | _ => Some hi
    end
  else Some lo.
End Bisector.

Definition interpolateNumber (a b t : Q) : Q := a * (1 - t) + b * t.

(** [normalize(a, b)]: position of [x] in [[a, b]], one half when the
    interval has no width. *)
Definition normalize (a b x : Q) : number :=
  let b' := b - a in
  if Qeq_bool b' 0 then Some (1 # 2) else jsdiv (x - a) b'.

Definition bimap (domain range : Q * Q) (x : Q) : number :=
  let '(d0, d1) := domain in
  let '(r0, r1) := range in
  if Qlt_bool d1 d0
  then option_map (interpolateNumber r1 r0) (normalize d1 d0 x)
  else option_map (interpolateNumber r0 r1) (normalize d0 d1 x).

(** A continuous scale with a two-point domain and range; a domain of
    [[NaN, NaN]] is [None]. *)
Record Continuous : Type := mkContinuous {
  domain : option (Q * Q);
  range : Q * Q
}.

Definition scale (s : Continuous) (x : Q) : number :=
  match domain s with
  | Some d => bimap d (range s) x
  | None => None
  end.

Definition invert (s : Continuous) (y : Q) : number :=
  match domain s with
  | Some d => bimap (range s) d y
  | None => None
  end.

(** The interpolation parameter of [d3.scaleSequential().domain([x0, x1])]:
    [k10 = t0 === t1 ? 0 : 1 / (t1 - t0)] and
    [k10 === 0 ? 0.5 : (x - t0) * k10]. *)
Definition sequential (x0 x1 x : Q) : number :=
  if Qeq_bool x0 x1 then Some (1 # 2)
  else option_map (Qmult (x - x0)) (jsdiv 1 (x1 - x0)).

End D3.

(** What running a handler gives. *)
Inductive result (A : Type) : Type :=
| Returned (a : A)
| Threw (error : string)
| OutOfFuel.
Arguments Returned {A} a.
Arguments Threw {A} error.
Arguments OutOfFuel {A}.

Inductive Chip : Type := Cpu | Gpu.

(* ================================================================== *)
(** ** TimeSeriesPlot *)
(* ================================================================== *)

Module TimeSeriesPlot.
Import ES.
Local Open Scope string_scope.
Local Open Scope Z_scope.

Record DataPoint : Type := mkDataPoint {
  time : string;
  allocated : Q;
  total : Q
}.

Definition chipStr (chip : Chip) : string :=
  match chip with Cpu => "cpu" | Gpu => "gpu" end.

Record Margin : Type := { mtop : Q; mright : Q; mbottom : Q; mleft : Q }.
Definition margin : Margin :=
  {| mtop := 40; mright := 40; mbottom := 40; mleft := 60 |}.

Definition width (clientWidth : Z) : Q := inject_Z (Z.max 1200 clientWidth).
Definition height (clientWidth : Z) : Q := (width clientWidth * (9 # 16))%Q.
Definition innerWidth (clientWidth : Z) : Q :=
  (width clientWidth - mleft margin - mright margin)%Q.
Definition innerHeight (clientWidth : Z) : Q :=
  (height clientWidth - mtop margin - mbottom margin)%Q.

(** [new Date(d.time)]. *)
Definition dateOf (tz : TimeZone) (d : DataPoint) : option Z := Str.parse tz (time d).

Definition asDomain (e : option (Z * Z)) : option (Q * Q) :=
  option_map (fun '(lo, hi) => (inject_Z lo, inject_Z hi)) e.

(** [x]: [d3.scaleTime().domain(d3.extent(data, ...)).range([0, innerWidth])]. *)
Definition xScale (tz : TimeZone) (data : list DataPoint) (clientWidth : Z)
  : D3.Continuous :=
  D3.mkContinuous (asDomain (D3.extent (map (dateOf tz) data)))
                  (0%Q, innerWidth clientWidth).

(** [d3.max(data, d => d.total) || 0]. *)
Definition maxTotal (data : list DataPoint) : Q :=
  match D3.max (map total data) with
  | Some m => if Qeq_bool m 0 then 0%Q else m
  | None => 0%Q
  end.

(** [y]: [d3.scaleLinear().domain([0, max]).range([innerHeight, 0])]. *)
Definition yScale (data : list DataPoint) (clientWidth : Z) : D3.Continuous :=
  D3.mkContinuous (Some (0%Q, maxTotal data)) (innerHeight clientWidth, 0%Q).

(** [x(date)] and [x.invert(px)]; the invalid date is [None].  Here the
    arithmetic is exact; [Float64.x] and [Float64.xInvert] are the same
    scale with every operation rounded as the engine rounds it. *)
Definition x (tz : TimeZone) (data : list DataPoint) (clientWidth : Z) (date : option Z)
  : D3.number :=
  match date with
  | Some t => D3.scale (xScale tz data clientWidth) (inject_Z t)
  | None => None
  end.

Definition xInvert (tz : TimeZone) (data : list DataPoint) (clientWidth : Z) (px : Q)
  : option Z :=
  option_map D3.toDate (D3.invert (xScale tz data clientWidth) px).

Definition y (data : list DataPoint) (clientWidth : Z) (v : Q) : D3.number :=
  D3.scale (yScale data clientWidth) v.

Record Scales : Type := { scaleX : D3.Continuous; scaleY : D3.Continuous }.

(** [drawPlot]: returns early ([None]) without data, else builds the scales
    and draws.  The refs are taken to be attached. *)
Definition drawPlot (tz : TimeZone) (data : option (list DataPoint)) (clientWidth : Z)
  : option Scales :=
  match data with
  | None => None
  | Some rows =>
      Some {| scaleX := xScale tz rows clientWidth; scaleY := yScale rows clientWidth |}
  end.

(** The sample the pointer handler picks for the inverted time [xDate]:
    [data[bisect(data, xDate)]]. *)
Definition bisect (tz : TimeZone) (data : list DataPoint) (xDate : option Z)
  : option nat :=
  D3.left (dateOf tz) data xDate.

Definition sampleAt (tz : TimeZone) (data : list DataPoint) (xDate : option Z)
  : option (option DataPoint) :=
  option_map (nth_error data) (bisect tz data xDate).

Definition tooltipHeight : Q := 80.
Definition tooltipWidth : Q := 150.
Definition padding : Q := 10.

(** The placement computed by the [mousemove] handler: [(left, top)]. *)
Definition tooltipPosition (clientWidth : Z) (mouseX mouseY : Q) : Q * Q :=
  let top := (mouseY + mtop margin)%Q in
  let left := (mouseX + mleft margin)%Q in
  let top :=
    if D3.Qlt_bool (innerHeight clientWidth) (top + tooltipHeight + padding)
    then (mouseY - tooltipHeight - padding + mtop margin)%Q else top in
  let left :=
    if D3.Qlt_bool (innerWidth clientWidth) (left + tooltipWidth + padding)
    then (mouseX - tooltipWidth - padding + mleft margin)%Q else left in
  (left, top).

Record Tooltip : Type := { sample : DataPoint; left : Q; top : Q }.

(** The [mousemove] handler.  Reading [d.time] of a missing sample throws. *)
Definition mousemove (tz : TimeZone) (data : list DataPoint) (clientWidth : Z)
                     (mouseX mouseY : Q) : result Tooltip :=
  let xDate := xInvert tz data clientWidth mouseX in
  match sampleAt tz data xDate with
  | None => OutOfFuel
  | Some None => Threw "TypeError"
  | Some (Some d) =>
      let '(l, t) := tooltipPosition clientWidth mouseX mouseY in
      Returned {| sample := d; left := l; top := t |}
  end.

(** *** Component state, fetch and render *)

Record State : Type := mkState {
  data : option (list DataPoint);
  loading : bool;
  error : option string
}.

Definition initial : State := mkState None true None.

Inductive Body : Type :=
| NotJSON (rawText : string)
| JSON (result : option (list DataPoint)).

Inductive FetchResult : Type :=
| Rejected (message : string)
| Response (status : Z) (body : Body).

(** [response.ok]. *)
Definition ok (status : Z) : bool := (200 <=? status) && (status <=? 299).

(** The [try] block of [fetchData]: the parsed result, or the message of
    the error thrown. *)
Definition fetchData (r : FetchResult) : string + option (list DataPoint) :=
  match r with
  | Rejected message => inl message
  | Response status body =>
      if negb (ok status) then inl ("HTTP error! status: " ++ Str.ofZ status)
      else
        match body with
        | NotJSON rawText =>
            inl ("Invalid JSON response: " ++ substring 0 100 rawText ++ "...")
        | JSON result => inr result
        end
  end.

(** The state once the fetch has settled. *)
Definition settle (isMounted : bool) (s : State) (r : FetchResult) : State :=
  if isMounted then
    match fetchData r with
    | inr result => mkState result false (error s)
    | inl message => mkState (data s) false (Some message)
    end
  else s.

Inductive View : Type :=
| LoadingView
| ErrorView (message : string)
| NoDataAvailable
| ChartView (rows : list DataPoint).

Definition truthy (s : option string) : bool :=
  match s with
  | Some EmptyString => false
  | Some _ => true
  | None => false
  end.

Definition render (s : State) : View :=
  if loading s then LoadingView
  else if truthy (error s) then
    ErrorView (match error s with Some m => m | None => "" end)
  else
    match data s with
    | None => NoDataAvailable
    | Some rows => ChartView rows
    end.

End TimeSeriesPlot.

(* ================================================================== *)
(** ** CalendarHeatmap: the range and the week grid *)
(* ================================================================== *)

Module CalendarHeatmap.
Import ES.
Local Open Scope string_scope.
Local Open Scope Z_scope.

(** [startDate]: the prop when given, else 1 January of the current year. *)
Definition startDate (tz : TimeZone) (now : Date.t) (propStartDate : option Date.t)
  : Date.t :=
  match propStartDate with
  | Some d => d
  | None => Date.make tz (Date.getFullYear tz now) 0 1
  end.

(** [endDate]: one year after [startDate], minus one day. *)
Definition endDate (tz : TimeZone) (startDate : Date.t) : Date.t :=
  let end1 := Date.setFullYear tz startDate (Date.getFullYear tz startDate + 1) in
  Date.setDate tz end1 (Date.getDate tz end1 - 1).

(** [allDatesInRange]: the [while (currentDate <= endDate)] loop. *)
Fixpoint allDatesLoop (fuel : nat) (tz : TimeZone) (currentDate endDate : Date.t)
  : option (list Date.t) :=
  if currentDate <=? endDate then
    match fuel with
    | O => None
    | S fuel' =>
        option_map (cons currentDate)
          (allDatesLoop fuel' tz
             (Date.setDate tz currentDate (Date.getDate tz currentDate + 1))
             endDate)
    end
  else Some [].

Definition allDatesInRange (fuel : nat) (tz : TimeZone) (startDate endDate : Date.t)
  : option (list Date.t) :=
  allDatesLoop fuel tz startDate endDate.

(** [firstSunday]: walk back a day at a time while [getDay() !== 0]. *)
Fixpoint firstSundayLoop (fuel : nat) (tz : TimeZone) (d : Date.t) : option Date.t :=
  if Date.getDay tz d =? 0 then Some d
  else
    match fuel with
    | O => None
    | S fuel' => firstSundayLoop fuel' tz (Date.setDate tz d (Date.getDate tz d - 1))
    end.

Definition firstSunday (fuel : nat) (tz : TimeZone) (startDate : Date.t)
  : option Date.t :=
  firstSundayLoop fuel tz startDate.

(** [getWeekNumber]; both [Math.floor]s are floor divisions. *)
Definition getWeekNumber (firstSunday date : Date.t) : Z :=
  let daysSinceStart := (Date.getTime date - Date.getTime firstSunday) / (24 * 60 * 60 * 1000) in
  daysSinceStart / 7.

Definition visibleDates (allDates : list Date.t) (startDate endDate : Date.t)
  : list Date.t :=
  filter (fun d => (startDate <=? d) && (d <=? endDate)) allDates.

Definition cellSize : Z := 12.
Definition cellMargin : Z := 2.
Definition fullCellSize : Z := cellSize + cellMargin.

(** The [x] and [y] attributes of the rect of day [d]. *)
Definition rectXY (tz : TimeZone) (firstSunday d : Date.t) : Z * Z :=
  (getWeekNumber firstSunday d * fullCellSize, Date.getDay tz d * fullCellSize).

(** The grid position of a day cell: week column and weekday row. *)
Definition cellOf (tz : TimeZone) (firstSunday d : Date.t) : Z * Z :=
  (getWeekNumber firstSunday d, Date.getDay tz d).

(** The visible cells of a range, in drawing order. *)
Definition gridCells (fuel : nat) (tz : TimeZone) (startDate endDate : Date.t)
  : option (list (Z * Z)) :=
  match allDatesInRange fuel tz startDate endDate, firstSunday fuel tz startDate with
  | Some dates, Some fs =>
      Some (map (cellOf tz fs) (visibleDates dates startDate endDate))
  | _, _ => None
  end.

(** *** Data, fills and tooltip *)

Record DayData : Type := mkDayData { date : string; value : Z }.

(** A row of the response body, as far as the component reads it. *)
Record RawItem : Type := mkRawItem { time : string; allocated : Q }.

(** [Math.round]: the nearest integer, a half going up. *)
Definition Math_round (v : Q) : Z := Qfloor (v + (1 # 2)).

Definition processedData (rawData : list RawItem) : list DayData :=
  map (fun item => mkDayData (time item) (Math_round (allocated item))) rawData.

Definition chipStrUpper (chip : Chip) : string :=
  match chip with Cpu => "CPU" | Gpu => "GPU" end.

(** [new Map(entries)]: of two entries with one key the later stands. *)
Fixpoint get (entries : list (string * Z)) (key : string) : option Z :=
  match entries with
  | [] => None
  | (k, v) :: rest =>
      match get rest key with
      | Some v' => Some v'
      | None => if String.eqb k key then Some v else None
      end
  end.

Definition has (entries : list (string * Z)) (key : string) : bool :=
  match get entries key with Some _ => true | None => false end.

Definition dataMap (data : list DayData) : list (string * Z) :=
  map (fun d => (Str.beforeT (date d), value d)) data.

(** [d3.min(data, d => d.value) || 0], and the same with [d3.max]. *)
Definition orZero (v : option Q) : Q :=
  match v with
  | Some m => if Qeq_bool m 0 then 0%Q else m
  | None => 0%Q
  end.

Definition minValue (data : list DayData) : Q :=
  orZero (D3.min (map (fun d => inject_Z (value d)) data)).
Definition maxValue (data : list DayData) : Q :=
  orZero (D3.max (map (fun d => inject_Z (value d)) data)).

(** [colorScale]: [d3.scaleSequential().domain([minValue, maxValue])] with
    the interpolator [interpolateBlues], here a parameter.  [None] is the
    colour of a [NaN] parameter. *)
Definition colorScale (interpolateBlues : Q -> string) (data : list DayData) (v : Z)
  : option string :=
  option_map interpolateBlues
    (D3.sequential (minValue data) (maxValue data) (inject_Z v)).

(** The [fill] of the rect of day [d]. *)
Definition fill (interpolateBlues : Q -> string) (data : list DayData) (d : Date.t)
  : option string :=
  let dateKey := Str.isoDate d in
  if has (dataMap data) dateKey then
    match get (dataMap data) dateKey with
    | Some v => colorScale interpolateBlues data v
    | None => None
    end
  else Some "#eee".

(** [dataMap.get(dateKey) || 0]. *)
Definition tooltipValue (data : list DayData) (d : Date.t) : Z :=
  match get (dataMap data) (Str.isoDate d) with
  | Some v => if v =? 0 then 0 else v
  | None => 0
  end.

(** [value ? Math.round(value) : "No data"]; [value] is an integer. *)
Definition valueText (value : Z) : string :=
  if value =? 0 then "No data" else Str.ofZ value.

(** The tooltip's markup, layout whitespace apart; [formattedDate] is
    [d.toLocaleDateString()], which depends on the locale. *)
Definition tooltipHtml (chip : Chip) (formattedDate : string) (data : list DayData)
                       (d : Date.t) : string :=
  "Date: " ++ formattedDate ++ "<br>" ++
  chipStrUpper chip ++ "s: " ++ valueText (tooltipValue data d).

Definition height : Q := inject_Z (Z.max (7 * fullCellSize + 50) 230).

Definition tooltipWidth : Q := 150.
Definition tooltipHeight : Q := 60.
Definition padding : Q := 10.

(** The placement computed by the [mousemove] handler: [(left, top)]. *)
Definition tooltipPosition (containerWidth : Z) (mouseX mouseY : Q) : Q * Q :=
  let top := mouseY in
  let left := (mouseX + padding)%Q in
  let left :=
    if D3.Qlt_bool (inject_Z containerWidth) (left + tooltipWidth + padding)
    then (mouseX - tooltipWidth - padding)%Q else left in
  let top :=
    if D3.Qlt_bool height (top + tooltipHeight + padding)
    then (mouseY - tooltipHeight - padding)%Q else top in
  (left, top).

End CalendarHeatmap.


(* ================================================================== *)
(** ** Notions used to state the properties *)
(* ================================================================== *)

Module Spec.
Import ES.

(** The instant at which the zone's clocks read time of day [tod] on the
    local day numbered [n]. *)
Definition wall (tz : TimeZone) (tod n : Z) : Z := UTC tz (MakeDate n tod).

(** The wall-clock time of [start] is regular in the zone: [start] is the
    instant its own reading denotes, that time of day exists on every day,
    and later days are later instants.  So it is for every instant of a zone
    whose clocks never shift, and for midnight where they shift at 02:00. *)
Definition regular (tz : TimeZone) (start : Z) : Prop :=
  let tod := TimeWithinDay (LocalTime tz start) in
  UTC tz (LocalTime tz start) = start /\
  (forall n, LocalTime tz (wall tz tod n) = MakeDate n tod) /\
  (forall n m, n < m -> wall tz tod n < wall tz tod m).

(** Whole days from [a] to [b]. *)
Definition daysBetween (a b : Z) : Z := (b - a) / msPerDay.

(** [n, n + 1, ..., n + k - 1]. *)
Fixpoint zseq (n : Z) (k : nat) : list Z :=
  match k with
  | O => []
  | S k' => n :: zseq (n + 1) k'
  end.

(** [s] occurs in [t]. *)
Definition contains (t s : string) : Prop :=
  exists pre post, t = (pre ++ s ++ post)%string.

End Spec.

(* ================================================================== *)
(** ** The scenarios of the specification *)
(* ================================================================== *)

Module Scenario.
Import ES.
Local Open Scope string_scope.

(** Scenario A: two samples a day apart. *)
Definition seriesA : list TimeSeriesPlot.DataPoint :=
  [ TimeSeriesPlot.mkDataPoint "2024-01-01T00:00Z" 10 100;
    TimeSeriesPlot.mkDataPoint "2024-01-02T00:00Z" 20 100 ].

Definition noonA : string := "2024-01-01T12:00Z".

(** A heatmap series whose only sample, for 1 January 2024, is zero. *)
Definition zeroDay : list CalendarHeatmap.DayData :=
  [ CalendarHeatmap.mkDayData "2024-01-01T00:00:00.000Z" 0 ].

(** A state showing a chart from an earlier fetch. *)
Definition showingA : TimeSeriesPlot.State :=
  TimeSeriesPlot.mkState (Some seriesA) false None.

(** [new Date(2025, 0, 1, 2, 30)]: half past two on New Year's Day. *)
Definition halfPastTwo (tz : TimeZone) : Date.t :=
  UTC tz (MakeDate (MakeDay 2025 0 1) (MakeTime 2 30 0 0)).

(** An instant in June 2024, for "now". *)
Definition june2024 (tz : TimeZone) : Date.t := Date.make tz 2024 5 15.

End Scenario.

(* ================================================================== *)
(** ** CalendarHeatmap: sizes, month labels, legend *)
(* ================================================================== *)

Module HeatmapLayout.
Import ES CalendarHeatmap.
Local Open Scope Z_scope.

(** [Math.ceil(a / b)] for integers [a] and [0 < b]. *)
Definition ceilDiv (a b : Z) : Z := - ((- a) / b).

(** [totalDays] and [weeksNeeded] of [drawHeatmap]. *)
Definition totalDays (firstSunday endDate : Date.t) : Z :=
  ceilDiv (Date.getTime endDate - Date.getTime firstSunday) (24 * 60 * 60 * 1000) + 1.

Definition weeksNeeded (firstSunday endDate : Date.t) : Z :=
  ceilDiv (totalDays firstSunday endDate) 7.

Definition calendarWidth (firstSunday endDate : Date.t) (containerWidth : Z) : Z :=
  Z.min (weeksNeeded firstSunday endDate * fullCellSize) (containerWidth - 100).

Record Margin : Type := { mtop : Z; mright : Z; mbottom : Z; mleft : Z }.
Definition margin : Margin := {| mtop := 50; mright := 60; mbottom := 20; mleft := 40 |}.

(** [width], the width of the SVG view box. *)
Definition width (firstSunday endDate : Date.t) (containerWidth : Z) : Z :=
  calendarWidth firstSunday endDate containerWidth + mleft margin + mright margin.

(** The [x] attribute of the label of the month of [d]: the week column of
    the Sunday on or before the first of the month. *)
Definition monthLabelX (fuel : nat) (tz : TimeZone) (firstSunday d : Date.t)
  : option Z :=
  let firstDay := Date.make tz (Date.getFullYear tz d) (Date.getMonth tz d) 1 in
  match firstSundayLoop fuel tz firstDay with
  | Some firstSundayOfMonth =>
      let daysSinceStart :=
        (Date.getTime firstSundayOfMonth - Date.getTime firstSunday)
        / (24 * 60 * 60 * 1000) in
      let weeksSinceStart := daysSinceStart / 7 in
      Some (weeksSinceStart * fullCellSize)
  | None => None
  end.

Definition numStops : Z := 10.

(** The ramp parameter of the legend's colour stop [i]:
    [colorScale(minValue + offset * (maxValue - minValue))] with
    [offset = i / numStops]. *)
Definition legendStop (data : list DayData) (i : Z) : D3.number :=
  let offset := (inject_Z i / inject_Z numStops)%Q in
  D3.sequential (minValue data) (maxValue data)
    (minValue data + offset * (maxValue data - minValue data))%Q.

End HeatmapLayout.

(* ================================================================== *)
(** ** ISO timestamps *)
(* ================================================================== *)

Module Iso.
Import ES.
Local Open Scope string_scope.
Local Open Scope Z_scope.

(** [d.toISOString()] for a year within 0..9999 (and, with the six-digit
    year of [Str.isoDate], outside). *)
Definition toISOString (d : Z) : string :=
  Str.isoDate d ++ "T" ++ Str.pad 2 (HourFromTime d) ++ ":" ++
  Str.pad 2 (MinFromTime d) ++ ":" ++ Str.pad 2 (SecFromTime d) ++ "." ++
  Str.pad 3 (msFromTime d) ++ "Z".

(** No [T] occurs in [s]. *)
Fixpoint hasNoT (s : string) : bool :=
  match s with
  | EmptyString => true
  | String c rest => negb (Ascii.eqb c "T") && hasNoT rest
  end.

(** [Str.digits] reads [n], printed on [k] digits, back, and the print has
    no [T]. *)
Definition padReadsBack (k : nat) (n : Z) : bool :=
  match Str.digits k 0 (Str.pad k n) with
  | Some (v, EmptyString) => (v =? n) && hasNoT (Str.pad k n)
  | _ => false
  end.

End Iso.

(* ================================================================== *)
(** ** The position scale in binary64 *)
(* ================================================================== *)

Module Float64.
Local Open Scope Q_scope.

(** A JavaScript number is an IEEE 754 binary64: every arithmetic
    operation gives the exact result rounded to the nearest number with a
    significand of 53 bits, a tie going to the even significand.  [round]
    is that rounding, on the rationals.  The exponent range of binary64 is
    left out: what the position scale computes from time values (8.64e15 at
    most in magnitude) and pixel widths is 0 or lies between 2^-60 and 2^60
    in magnitude, far inside it. *)

Definition pow2 (e : Z) : Q := 2 ^ e.

(** The exponent of [x]: [2 ^ exponent x <= |x| < 2 ^ (exponent x + 1)],
    for [x] other than 0. *)
Definition exponent (x : Q) : Z :=
  let k := (Z.log2 (Z.abs (Qnum x)) - Z.log2 (Zpos (Qden x)))%Z in
  if Qle_bool (pow2 k) (Qabs x) then k else (k - 1)%Z.

(** The integer nearest [x], for [0 <= x]; of two as near, the even one. *)
Definition nearestEven (x : Q) : Z :=
  let f := Qfloor x in
  match Qcompare (x - inject_Z f) (1 # 2) with
  | Lt => f
  | Gt => (f + 1)%Z
  | Eq => if Z.even f then f else (f + 1)%Z
  end.

Definition round (x : Q) : Q :=
  if Qeq_bool x 0 then 0
  else
    let ulp := pow2 (exponent x - 52) in
    let s := inject_Z (nearestEven (Qabs x / ulp)) * ulp in
    if Qle_bool 0 x then s else - s.

(** Half the gap between 1 and the next number: [2 ^ -53]. *)
Definition eps : Q := 1 # 9007199254740992.

(** [a + b], [a - b], [a * b] and [a / b] of JavaScript. *)
Definition add (a b : Q) : Q := round (a + b).
Definition sub (a b : Q) : Q := round (a - b).
Definition mul (a b : Q) : Q := round (a * b).
Definition div (a b : Q) : D3.number :=
  if Qeq_bool b 0 then None else Some (round (a / b)).

(** d3's [interpolateNumber(a, b)]: [a * (1 - t) + b * t]. *)
Definition interpolateNumber (a b t : Q) : Q := add (mul a (sub 1 t)) (mul b t).

(** d3's [normalize(a, b)]: [(b -= a) ? x => (x - a) / b : constant(0.5)]. *)
Definition normalize (a b x : Q) : D3.number :=
  let b' := sub b a in
  if Qeq_bool b' 0 then Some (1 # 2) else div (sub x a) b'.

Definition bimap (domain range : Q * Q) (x : Q) : D3.number :=
  let '(d0, d1) := domain in
  let '(r0, r1) := range in
  if D3.Qlt_bool d1 d0
  then option_map (interpolateNumber r1 r0) (normalize d1 d0 x)
  else option_map (interpolateNumber r0 r1) (normalize d0 d1 x).

Definition scale (s : D3.Continuous) (x : Q) : D3.number :=
  match D3.domain s with
  | Some d => bimap d (D3.range s) x
  | None => None
  end.

Definition invert (s : D3.Continuous) (y : Q) : D3.number :=
  match D3.domain s with
  | Some d => bimap (D3.range s) d y
  | None => None
  end.

(** [x(date)] and [x.invert(px)] of [drawPlot], as the engine computes
    them; [x.invert] ends in [new Date(...)], which truncates. *)
Definition x (tz : ES.TimeZone) (data : list TimeSeriesPlot.DataPoint) (clientWidth : Z)
             (date : option Z) : D3.number :=
  match date with
  | Some t => scale (TimeSeriesPlot.xScale tz data clientWidth) (inject_Z t)
  | None => None
  end.

Definition xInvert (tz : ES.TimeZone) (data : list TimeSeriesPlot.DataPoint)
                   (clientWidth : Z) (px : Q) : option Z :=
  option_map D3.toDate (invert (TimeSeriesPlot.xScale tz data clientWidth) px).

(** [y] is [x] to within the factors [l] and [h]: [l * x <= y <= h * x]. *)
Definition within (l h x y : Q) : Prop := l * x <= y <= h * x.

End Float64.

(* ================================================================== *)
(** ** Calendar arithmetic *)
(* ================================================================== *)

Module ESFacts.
Import ES.

Ltac zdiv := Z.to_euclidean_division_equations; lia.

Lemma DayFromYear_succ (y : Z) : DayFromYear (y + 1) - DayFromYear y = DaysInYear y.
Proof.
  unfold DayFromYear, DaysInYear.
  destruct (Z.eqb_spec (y mod 4) 0); cbn [negb];
    [ destruct (Z.eqb_spec (y mod 100) 0); cbn [negb];
      [ destruct (Z.eqb_spec (y mod 400) 0); cbn [negb] | ] | ];
    zdiv.
Qed.

Lemma DaysInYear_cases (y : Z) : DaysInYear y = 365 + leapOf y /\ (leapOf y = 0 \/ leapOf y = 1).
Proof.
  unfold leapOf, DaysInYear.
  destruct (negb (y mod 4 =? 0)); [cbn; lia|].
  destruct (negb (y mod 100 =? 0)); [cbn; lia|].
  destruct (negb (y mod 400 =? 0)); cbn; lia.
Qed.

(** [YearFromTime] is the year whose span of days holds [Day t]. *)
Lemma YearFromTime_spec (t : Z) :
  DayFromYear (YearFromTime t) <= Day t < DayFromYear (YearFromTime t + 1).
Proof.
  unfold YearFromTime.
  set (d := Day t). set (y := 1970 + d * 400 / 146097).
  assert (Hlo : DayFromYear (y - 1) <= d) by (subst y; unfold DayFromYear; zdiv).
  assert (Hhi : d < DayFromYear (y + 2)) by (subst y; unfold DayFromYear; zdiv).
  destruct (Z.leb_spec (DayFromYear (y + 1)) d).
  - replace (y + 1 + 1) with (y + 2) by lia. lia.
  - destruct (Z.ltb_spec d (DayFromYear y)).
    + replace (y - 1 + 1) with y by lia. lia.
    + lia.
Qed.

Lemma MonthFromTime_range (t : Z) : 0 <= MonthFromTime t <= 11.
Proof.
  unfold MonthFromTime.
  repeat match goal with |- context [if ?b then _ else _] => destruct b end; lia.
Qed.

Lemma MakeDay_in_year (y m d : Z) :
  0 <= m <= 11 -> MakeDay y m d = DayFromYear y + monthStart m (leapOf y) + d - 1.
Proof.
  intros Hm. unfold MakeDay.
  rewrite (Z.div_small m 12), (Z.mod_small m 12), Z.add_0_r by lia. reflexivity.
Qed.

(** Rebuilding a day from its own fields, the date moved by [k], moves the
    day by [k]: what [setDate(getDate() + k)] relies on. *)
Lemma MakeDay_fields (t k : Z) :
  MakeDay (YearFromTime t) (MonthFromTime t) (DateFromTime t + k) = Day t + k.
Proof.
  rewrite MakeDay_in_year by apply MonthFromTime_range.
  unfold DateFromTime, DayWithinYear, InLeapYear. lia.
Qed.

Lemma Day_MakeDate (n tod : Z) : 0 <= tod < msPerDay -> Day (MakeDate n tod) = n.
Proof. unfold Day, MakeDate, msPerDay. intros. zdiv. Qed.

Lemma TimeWithinDay_MakeDate (n tod : Z) :
  0 <= tod < msPerDay -> TimeWithinDay (MakeDate n tod) = tod.
Proof. unfold TimeWithinDay, MakeDate, msPerDay. intros. zdiv. Qed.

Lemma MakeDate_Day (t : Z) : MakeDate (Day t) (TimeWithinDay t) = t.
Proof. unfold MakeDate, Day, TimeWithinDay, msPerDay. zdiv. Qed.

Lemma TimeWithinDay_range (t : Z) : 0 <= TimeWithinDay t < msPerDay.
Proof. unfold TimeWithinDay, msPerDay. zdiv. Qed.

Lemma monthStart_leap (m : Z) :
  0 <= m <= 11 ->
  forall l, monthStart m l = monthStart m 0 + (if m <=? 1 then 0 else l).
Proof.
  intros Hm l.
  assert (H : m = 0 \/ m = 1 \/ m = 2 \/ m = 3 \/ m = 4 \/ m = 5 \/ m = 6 \/
              m = 7 \/ m = 8 \/ m = 9 \/ m = 10 \/ m = 11) by lia.
  repeat (destruct H as [-> | H]; [cbn; lia|]). subst; cbn; lia.
Qed.

(** The same month and date one year on is 365 or 366 days later. *)
Lemma year_span (y m d : Z) :
  0 <= m <= 11 ->
  let n := MakeDay (y + 1) m d - MakeDay y m d in n = 365 \/ n = 366.
Proof.
  intros Hm. cbv zeta.
  rewrite !MakeDay_in_year by assumption.
  rewrite (monthStart_leap m Hm (leapOf (y + 1))), (monthStart_leap m Hm (leapOf y)).
  pose proof (DayFromYear_succ y) as Hs.
  destruct (DaysInYear_cases y) as [Hy Hl], (DaysInYear_cases (y + 1)) as [_ Hl'].
  destruct (m <=? 1); lia.
Qed.

Lemma DayFromYear_mono (a b : Z) : a <= b -> DayFromYear a <= DayFromYear b.
Proof. unfold DayFromYear. intros. zdiv. Qed.

(** The year of a day is the one whose span holds it. *)
Lemma YearFromTime_unique (t y : Z) :
  DayFromYear y <= Day t < DayFromYear (y + 1) -> YearFromTime t = y.
Proof.
  intros Hy. pose proof (YearFromTime_spec t) as HY.
  destruct (Z.lt_trichotomy (YearFromTime t) y) as [H|[H|H]]; [|exact H|].
  - pose proof (DayFromYear_mono (YearFromTime t + 1) y). lia.
  - pose proof (DayFromYear_mono (y + 1) (YearFromTime t)). lia.
Qed.

(** [MakeDay] answers ECMA-262's "find a time value whose year, month and
    date are these": the fields of the day it returns are the ones given,
    for a date that exists in its month. *)
Lemma MakeDay_inverse (y m d tod : Z) :
  0 <= m <= 11 -> 0 <= tod < msPerDay ->
  1 <= d <= DaysInMonth m (leapOf y) ->
  let t := MakeDate (MakeDay y m d) tod in
  YearFromTime t = y /\ MonthFromTime t = m /\ DateFromTime t = d.
Proof.
  intros Hm Htod Hd. cbv zeta.
  rewrite MakeDay_in_year by assumption.
  destruct (DaysInYear_cases y) as [Hdays Hleap].
  pose proof (DayFromYear_succ y) as Hsucc.
  assert (Hcases : m = 0 \/ m = 1 \/ m = 2 \/ m = 3 \/ m = 4 \/ m = 5 \/ m = 6 \/
                   m = 7 \/ m = 8 \/ m = 9 \/ m = 10 \/ m = 11) by lia.
  assert (HY : YearFromTime (MakeDate (DayFromYear y + monthStart m (leapOf y) + d - 1) tod)
               = y).
  { apply YearFromTime_unique. rewrite Day_MakeDate by assumption.
    repeat (destruct Hcases as [-> | Hcases];
            [cbn [monthStart DaysInMonth] in *; lia|]).
    subst; cbn [monthStart DaysInMonth] in *; lia. }
  assert (HM : MonthFromTime (MakeDate (DayFromYear y + monthStart m (leapOf y) + d - 1) tod)
               = m).
  { unfold MonthFromTime, DayWithinYear, InLeapYear.
    rewrite HY, Day_MakeDate by assumption. clear HY.
    repeat (destruct Hcases as [-> | Hcases];
            [cbn [monthStart DaysInMonth] in *;
             repeat match goal with
                    | |- context [?a <? ?b] => destruct (Z.ltb_spec a b); try lia
                    end; reflexivity|]).
    subst; cbn [monthStart DaysInMonth] in *;
      repeat match goal with
             | |- context [?a <? ?b] => destruct (Z.ltb_spec a b); try lia
             end; reflexivity. }
  repeat split; [exact HY|exact HM|].
  unfold DateFromTime, DayWithinYear, InLeapYear.
  rewrite HM, HY, Day_MakeDate by assumption. lia.
Qed.

End ESFacts.

(* ================================================================== *)
(** ** The calendar grid where the wall-clock time is regular *)
(* ================================================================== *)

Module GridFacts.
Import ES Spec ESFacts CalendarHeatmap.

Lemma zseq_length (k : nat) : forall n, List.length (zseq n k) = k.
Proof. induction k; intros; cbn; auto. Qed.

Lemma zseq_In (k : nat) : forall n j, In j (zseq n k) <-> n <= j < n + Z.of_nat k.
Proof.
  induction k; intros n j; cbn [zseq In].
  - lia.
  - rewrite IHk. lia.
Qed.

Lemma zseq_NoDup (k : nat) : forall n, NoDup (zseq n k).
Proof.
  induction k; intros n; cbn [zseq]; constructor; auto.
  rewrite zseq_In. lia.
Qed.

Lemma NoDup_map_on {A B : Type} (f : A -> B) (l : list A) :
  (forall a b, In a l -> In b l -> f a = f b -> a = b) ->
  NoDup l -> NoDup (map f l).
Proof.
  induction l as [|a l IH]; intros Hinj Hnd; cbn; [constructor|].
  inversion Hnd as [|? ? Hnotin Hnd']; subst.
  constructor.
  - intros Hin. apply in_map_iff in Hin as [b [Hfb Hb]].
    apply Hnotin. rewrite (Hinj a b); cbn; auto.
  - apply IH; auto. intros; apply Hinj; cbn; auto.
Qed.

Lemma filter_all {A : Type} (f : A -> bool) (l : list A) :
  (forall a, In a l -> f a = true) -> filter f l = l.
Proof.
  induction l as [|a l IH]; intros H; cbn; [reflexivity|].
  rewrite (H a) by (cbn; auto). f_equal. apply IH. intros; apply H; cbn; auto.
Qed.

Section Regular.
Context (tz : TimeZone) (tod : Z).
Hypothesis tod_range : 0 <= tod < msPerDay.
Hypothesis wall_back : forall n, LocalTime tz (wall tz tod n) = MakeDate n tod.
Hypothesis wall_mono : forall n m, n < m -> wall tz tod n < wall tz tod m.

Lemma wall_le (n m : Z) : n <= m -> wall tz tod n <= wall tz tod m.
Proof.
  intros H. destruct (Z.eq_dec n m) as [->|]; [lia|].
  pose proof (wall_mono n m). lia.
Qed.

Lemma setDate_wall (n k : Z) :
  Date.setDate tz (wall tz tod n) (Date.getDate tz (wall tz tod n) + k)
  = wall tz tod (n + k).
Proof.
  unfold Date.setDate, Date.getDate. rewrite wall_back.
  rewrite MakeDay_fields, Day_MakeDate, TimeWithinDay_MakeDate by assumption.
  reflexivity.
Qed.

Lemma getDay_wall (n : Z) : Date.getDay tz (wall tz tod n) = (n + 4) mod 7.
Proof.
  unfold Date.getDay, WeekDay. rewrite wall_back, Day_MakeDate by assumption.
  reflexivity.
Qed.

(** The loop lists the days from [n] up to the last one not after [e]. *)
Lemma allDatesLoop_wall (k : nat) :
  forall n e fuel,
    (forall j, n <= j < n + Z.of_nat k -> wall tz tod j <= e) ->
    e < wall tz tod (n + Z.of_nat k) ->
    (k <= fuel)%nat ->
    allDatesLoop fuel tz (wall tz tod n) e = Some (map (wall tz tod) (zseq n k)).
Proof.
  induction k as [|k IH]; intros n e fuel Hle Hlt Hfuel.
  - replace (n + Z.of_nat 0) with n in Hlt by lia.
    destruct fuel; cbn [allDatesLoop zseq map];
      destruct (Z.leb_spec (wall tz tod n) e); (lia || reflexivity).
  - destruct fuel as [|fuel]; [lia|].
    cbn [allDatesLoop zseq map].
    assert (Hn : wall tz tod n <= e) by (apply Hle; lia).
    destruct (Z.leb_spec (wall tz tod n) e); [|lia].
    rewrite setDate_wall, (IH (n + 1) e fuel); [reflexivity| | |lia].
    + intros j Hj. apply Hle. lia.
    + replace (n + 1 + Z.of_nat k) with (n + Z.of_nat (S k)) by lia. exact Hlt.
Qed.

(** Walking back from day [n] stops on the Sunday on or before it. *)
Lemma firstSundayLoop_wall (j : nat) :
  forall n fuel,
    (n + 4) mod 7 = Z.of_nat j -> (j <= fuel)%nat ->
    firstSundayLoop fuel tz (wall tz tod n) = Some (wall tz tod (n - Z.of_nat j)).
Proof.
  induction j as [|j IH]; intros n fuel Hj Hfuel.
  - replace (n - Z.of_nat 0) with n by lia.
    destruct fuel; cbn [firstSundayLoop]; rewrite getDay_wall, Hj; reflexivity.
  - destruct fuel as [|fuel]; [lia|].
    cbn [firstSundayLoop]. rewrite getDay_wall, Hj.
    destruct (Z.eqb_spec (Z.of_nat (S j)) 0); [lia|].
    replace (Date.getDate tz (wall tz tod n) - 1)
      with (Date.getDate tz (wall tz tod n) + -1) by lia.
    rewrite setDate_wall, (IH (n + -1) fuel); [f_equal; f_equal; lia| |lia].
    revert Hj. zdiv.
Qed.

Lemma setFullYear_wall (n y : Z) :
  let lt := MakeDate n tod in
  Date.setFullYear tz (wall tz tod n) y
  = wall tz tod (MakeDay y (MonthFromTime lt) (DateFromTime lt)).
Proof.
  cbv zeta. unfold Date.setFullYear.
  rewrite wall_back, TimeWithinDay_MakeDate by assumption. reflexivity.
Qed.

(** [endDate] of day [n] is the day before the same date a year on. *)
Lemma endDate_wall (n : Z) :
  let lt := MakeDate n tod in
  endDate tz (wall tz tod n)
  = wall tz tod (MakeDay (YearFromTime lt + 1) (MonthFromTime lt) (DateFromTime lt) - 1).
Proof.
  cbv zeta. unfold endDate. rewrite setFullYear_wall. cbv zeta.
  unfold Date.getFullYear. rewrite wall_back.
  match goal with |- Date.setDate _ ?w (?g - 1) = _ =>
    replace (g - 1) with (g + -1) by lia end.
  rewrite setDate_wall.
  generalize (MakeDay (YearFromTime (MakeDate n tod) + 1)
                (MonthFromTime (MakeDate n tod)) (DateFromTime (MakeDate n tod))).
  intros z. replace (z + -1) with (z - 1) by lia. reflexivity.
Qed.

Lemma endDate_span (n : Z) :
  exists m, endDate tz (wall tz tod n) = wall tz tod m /\
            (m - n + 1 = 365 \/ m - n + 1 = 366).
Proof.
  eexists; split; [apply endDate_wall|].
  pose proof (year_span (YearFromTime (MakeDate n tod)) (MonthFromTime (MakeDate n tod))
                (DateFromTime (MakeDate n tod)) (MonthFromTime_range _)) as Hs.
  cbv zeta in Hs.
  pose proof (MakeDay_fields (MakeDate n tod) 0) as Hf.
  rewrite Day_MakeDate, !Z.add_0_r in Hf by assumption.
  lia.
Qed.
End Regular.

Lemma regular_start (tz : TimeZone) (start : Z) :
  regular tz start ->
  start = wall tz (TimeWithinDay (LocalTime tz start)) (Day (LocalTime tz start)).
Proof.
  intros [H _]. unfold wall. rewrite MakeDate_Day. symmetry. exact H.
Qed.

Lemma fixed_regular (offset start : Z) : regular (Zone.fixed offset) start.
Proof.
  unfold regular, wall, LocalTime, UTC, Zone.fixed, MakeDate, msPerDay.
  repeat split; intros; lia.
Qed.

End GridFacts.

(* ================================================================== *)
(** ** Left bisection *)
(* ================================================================== *)

Module BisectFacts.

Lemma div2_between (lo hi : nat) :
  (lo < hi)%nat -> (lo <= Nat.div2 (lo + hi) < hi)%nat.
Proof.
  intros H. pose proof (Nat.div2_odd (lo + hi)) as E.
  destruct (Nat.odd (lo + hi)); cbn [Nat.b2n] in E; lia.
Qed.

(** The loop halves [hi - lo] each round: it never runs out of the fuel
    [left] gives it, whatever the order of the series. *)
Lemma leftLoop_total {A : Type} (f : A -> option Z) (a : list A) (x : option Z)
  (fuel : nat) :
  forall lo hi,
    (lo < hi)%nat -> (hi - lo <= fuel)%nat ->
    exists i, D3.leftLoop f fuel a x lo hi = Some i /\ (lo <= i <= hi)%nat.
Proof.
  induction fuel as [|fuel IH]; intros lo hi Hlh Hfuel; [lia|].
  cbn [D3.leftLoop].
  pose proof (div2_between lo hi Hlh) as Hmid.
  set (mid := Nat.div2 (lo + hi)) in *.
  destruct (match nth_error a mid with
            | Some d => D3.isNegative (D3.ascending (f d) x)
            | None => false
            end).
  - destruct (Nat.ltb_spec (S mid) hi).
    + destruct (IH (S mid) hi) as (i & Hi & Hb); [lia|lia|].
      exists i. split; [exact Hi|lia].
    + exists (S mid). split; [reflexivity|lia].
  - destruct (Nat.ltb_spec lo mid).
    + destruct (IH lo mid) as (i & Hi & Hb); [lia|lia|].
      exists i. split; [exact Hi|lia].
    + exists lo. split; [reflexivity|lia].
Qed.

Lemma left_total {A : Type} (f : A -> option Z) (a : list A) (x : option Z) :
  exists i, D3.left f a x = Some i /\ (i <= List.length a)%nat.
Proof.
  unfold D3.left.
  destruct (Nat.ltb_spec 0 (List.length a)) as [H|H].
  - destruct (leftLoop_total f a x (List.length a) 0 (List.length a)) as (i & Hi & Hb);
      [lia|lia|].
    destruct (D3.ascending x x) as [[| |]|];
      try (exists (List.length a); split; [reflexivity|lia]).
    exists i. split; [exact Hi|lia].
  - exists 0%nat. split; [reflexivity|lia].
Qed.

Section Sorted.
Context {A : Type} (f : A -> option Z) (a : list A) (times : list Z) (x : Z).
Hypothesis times_of : map f a = map Some times.
Hypothesis sorted :
  forall i j, (i <= j < List.length times)%nat -> nth i times 0 <= nth j times 0.

Lemma length_times : List.length times = List.length a.
Proof.
  rewrite <- (length_map Some times), <- times_of. apply length_map.
Qed.

Lemma less_at (mid : nat) :
  (mid < List.length a)%nat ->
  match nth_error a mid with
  | Some d => D3.isNegative (D3.ascending (f d) (Some x))
  | None => false
  end = (nth mid times 0 <? x).
Proof.
  intros Hmid.
  destruct (nth_error a mid) as [d|] eqn:E.
  - assert (Hf : nth_error (map f a) mid = Some (f d))
      by (rewrite nth_error_map, E; reflexivity).
    rewrite times_of, nth_error_map in Hf.
    destruct (nth_error times mid) as [t|] eqn:Et; [|discriminate].
    injection Hf as Hf. rewrite <- Hf.
    rewrite (nth_error_nth _ _ 0 Et).
    unfold D3.ascending, D3.isNegative.
    destruct (Z.ltb_spec t x); [reflexivity|].
    destruct (Z.ltb_spec x t); reflexivity.
  - apply nth_error_None in E. lia.
Qed.

(** The loop keeps the entries below [lo] before [x] and those from [hi]
    on at or after [x], and ends within [hi - lo] rounds. *)
Lemma leftLoop_spec (fuel : nat) :
  forall lo hi,
    (lo < hi <= List.length a)%nat -> (hi - lo <= fuel)%nat ->
    (forall j, (j < lo)%nat -> nth j times 0 < x) ->
    (forall j, (hi <= j < List.length a)%nat -> x <= nth j times 0) ->
    exists i,
      D3.leftLoop f fuel a (Some x) lo hi = Some i /\
      (i <= List.length a)%nat /\
      (forall j, (j < i)%nat -> nth j times 0 < x) /\
      (forall j, (i <= j < List.length a)%nat -> x <= nth j times 0).
Proof.
  pose proof length_times as Hlen.
  induction fuel as [|fuel IH]; intros lo hi Hlh Hfuel Hlo Hhi; [lia|].
  cbn [D3.leftLoop].
  pose proof (div2_between lo hi (proj1 Hlh)) as Hmid.
  set (mid := Nat.div2 (lo + hi)) in *.
  rewrite (less_at mid) by lia.
  destruct (Z.ltb_spec (nth mid times 0) x) as [Hlt|Hge].
  - assert (Hlo' : forall j, (j < S mid)%nat -> nth j times 0 < x).
    { intros j Hj. pose proof (sorted j mid). lia. }
    destruct (Nat.ltb_spec (S mid) hi).
    + apply IH; auto; lia.
    + exists (S mid). repeat split; auto; [lia|].
      intros j Hj. apply Hhi. lia.
  - assert (Hhi' : forall j, (mid <= j < List.length a)%nat -> x <= nth j times 0).
    { intros j Hj. pose proof (sorted mid j). lia. }
    destruct (Nat.ltb_spec lo mid).
    + apply IH; auto; lia.
    + exists lo. repeat split; auto; [lia|].
      intros j Hj. apply Hhi'. lia.
Qed.

(** [bisector(f).left] on a series in time order: the index of the first
    entry at or after [x], the length when there is none. *)
Lemma left_spec :
  exists i,
    D3.left f a (Some x) = Some i /\
    (i <= List.length a)%nat /\
    (forall j, (j < i)%nat -> nth j times 0 < x) /\
    (forall j, (i <= j < List.length a)%nat -> x <= nth j times 0).
Proof.
  unfold D3.left. cbn [D3.ascending]. rewrite !Z.ltb_irrefl.
  destruct (Nat.ltb_spec 0 (List.length a)).
  - apply leftLoop_spec; try lia.
  - exists 0%nat. repeat split; intros; lia.
Qed.
End Sorted.

End BisectFacts.

(* ================================================================== *)
(** ** TimeSeriesPlot: pointer lookup, fetch and render *)
(* ================================================================== *)

Module TimeSeriesFacts.
Import ES Spec TimeSeriesPlot.
Local Open Scope string_scope.

(** C1, as the specification states it, fails: for the two-sample series
    of Scenario A and the inverted time 2024-01-01T12:00Z the lookup
    [data[bisect(data, xDate)]] is not the 2024-01-01 sample. *)
Lemma scenario_A_not_first_sample :
  sampleAt Zone.utc Scenario.seriesA (Str.parse Zone.utc Scenario.noonA)
  <> Some (nth_error Scenario.seriesA 0).
Proof. vm_compute. discriminate. Qed.

(** C1, amended: for the two-sample series of Scenario A, in every time
    zone, the pointer whose position inverts to 2024-01-01T12:00Z (the
    middle of the plot) resolves to index 1, the 2024-01-02 sample: the
    first sample at or after the inverted time. *)
Theorem scenario_A_second_sample (tz : TimeZone) :
  xInvert tz Scenario.seriesA 1200 550 = Str.parse tz Scenario.noonA /\
  bisect tz Scenario.seriesA (Str.parse tz Scenario.noonA) = Some 1%nat /\
  sampleAt tz Scenario.seriesA (Str.parse tz Scenario.noonA)
  = Some (Some (mkDataPoint "2024-01-02T00:00Z" 20 100)).
Proof. repeat split; vm_compute; reflexivity. Qed.

(** The pointer handler always ends: it shows a tooltip or it throws. *)
Lemma mousemove_ends (tz : TimeZone) (data : list DataPoint) (clientWidth : Z)
  (mouseX mouseY : Q) :
  mousemove tz data clientWidth mouseX mouseY <> OutOfFuel.
Proof.
  unfold mousemove, sampleAt, bisect.
  destruct (BisectFacts.left_total (dateOf tz) data
              (xInvert tz data clientWidth mouseX)) as (i & -> & _).
  cbn [option_map]. destruct (nth_error data i); [|discriminate].
  destruct (tooltipPosition clientWidth mouseX mouseY). discriminate.
Qed.

(** C2 on the code: after a successful fetch of an empty array the
    component shows the chart, not the no-data message; [drawPlot] goes on
    to build the scales, over an undefined time extent; and a pointer
    event would throw on the missing sample. *)
Theorem empty_series_draws_chart (tz : TimeZone) (clientWidth : Z) (mouseX mouseY : Q) :
  let s := settle true initial (Response 200 (JSON (Some []))) in
  render s = ChartView [] /\
  render s <> NoDataAvailable /\
  (exists scales, drawPlot tz (data s) clientWidth = Some scales /\
                  D3.domain (scaleX scales) = None) /\
  mousemove tz [] clientWidth mouseX mouseY = Threw "TypeError".
Proof.
  cbn. repeat split; try discriminate.
  eexists; split; reflexivity.
Qed.

(** The no-data message is what a [null] result gives. *)
Lemma null_result_no_data :
  render (settle true initial (Response 200 (JSON None))) = NoDataAvailable.
Proof. reflexivity. Qed.

Lemma contains_suffix (a b : string) : contains (a ++ b) b.
Proof.
  exists a, "". f_equal. induction b; cbn; congruence.
Qed.

(** C7: a response whose status is not a success status sets an error
    whose message carries the status code; the error view is rendered in
    place of the chart, whatever series an earlier fetch had left. *)
Theorem http_error_replaces_chart (s : State) (status : Z) (body : Body) :
  ok status = false ->
  let s' := settle true s (Response status body) in
  let message := "HTTP error! status: " ++ Str.ofZ status in
  error s' = Some message /\
  contains message (Str.ofZ status) /\
  render s' = ErrorView message /\
  (forall rows, render s' <> ChartView rows).
Proof.
  intros Hok. cbv zeta. unfold settle, fetchData. rewrite Hok. cbn [negb].
  unfold render. cbn [loading error truthy append].
  repeat split; try discriminate.
  apply (contains_suffix "HTTP error! status: ").
Qed.

Lemma http_error_replaces_chart_witness :
  ok 500 = false /\
  render (settle true Scenario.showingA (Response 500 (JSON (Some []))))
  = ErrorView "HTTP error! status: 500".
Proof.
  split; [reflexivity|].
  exact (proj1 (proj2 (proj2
    (http_error_replaces_chart Scenario.showingA 500 (JSON (Some [])) eq_refl)))).
Defined.

End TimeSeriesFacts.

(* ================================================================== *)
(** ** CalendarHeatmap: the grid *)
(* ================================================================== *)

Module HeatmapFacts.
Import ES Spec ESFacts GridFacts CalendarHeatmap.

Lemma wall_fixed (offset tod n : Z) :
  wall (Zone.fixed offset) tod n = n * msPerDay + tod - offset.
Proof. reflexivity. Qed.

(** In a zone whose clocks never shift the week number counts whole
    days. *)
Lemma getWeekNumber_fixed (offset tod a b : Z) :
  getWeekNumber (wall (Zone.fixed offset) tod a) (wall (Zone.fixed offset) tod b)
  = (b - a) / 7.
Proof.
  unfold getWeekNumber, Date.getTime. rewrite !wall_fixed. unfold msPerDay.
  f_equal. zdiv.
Qed.

(** The anchor: from a regular wall-clock time the backward walk ends, in
    at most six steps, on the Sunday on or before [start]. *)
Lemma firstSunday_regular (tz : TimeZone) (start : Z) (fuel : nat) :
  regular tz start -> (6 <= fuel)%nat ->
  let lt := LocalTime tz start in
  let fs := wall tz (TimeWithinDay lt) (Day lt - WeekDay lt) in
  firstSunday fuel tz start = Some fs /\ Date.getDay tz fs = 0 /\ fs <= start.
Proof.
  intros Hreg Hfuel. cbv zeta.
  pose proof (regular_start tz start Hreg) as Hstart.
  destruct Hreg as (_ & Hback & Hmono).
  pose proof (TimeWithinDay_range (LocalTime tz start)) as Htod.
  unfold WeekDay.
  set (tod := TimeWithinDay (LocalTime tz start)) in *.
  set (n := Day (LocalTime tz start)) in *.
  clearbody tod n. subst start.
  assert (Hw : 0 <= (n + 4) mod 7 < 7) by (apply Z.mod_pos_bound; lia).
  repeat split.
  - unfold firstSunday.
    rewrite (firstSundayLoop_wall tz tod Htod Hback (Z.to_nat ((n + 4) mod 7)) n fuel)
      by lia.
    rewrite Z2Nat.id by lia. reflexivity.
  - rewrite (getDay_wall tz tod Htod Hback). revert Hw. zdiv.
  - apply (wall_le tz tod Hmono). lia.
Qed.

(** The year of cells: from a regular wall-clock time the loop lists one
    date per calendar day from [start] to [endDate], 365 or 366 of them,
    all visible. *)
Lemma year_of_cells_regular (tz : TimeZone) (start : Z) (fuel : nat) :
  regular tz start -> (366 <= fuel)%nat ->
  exists dates,
    allDatesInRange fuel tz start (endDate tz start) = Some dates /\
    visibleDates dates start (endDate tz start) = dates /\
    (List.length dates = 365%nat \/ List.length dates = 366%nat).
Proof.
  intros Hreg Hfuel.
  pose proof (regular_start tz start Hreg) as Hstart.
  destruct Hreg as (_ & Hback & Hmono).
  pose proof (TimeWithinDay_range (LocalTime tz start)) as Htod.
  set (tod := TimeWithinDay (LocalTime tz start)) in *.
  set (n := Day (LocalTime tz start)) in *.
  clearbody tod n. subst start.
  destruct (endDate_span tz tod Htod Hback n) as (m & Hend & Hspan).
  rewrite Hend. unfold allDatesInRange.
  set (k := Z.to_nat (m - n + 1)).
  assert (Hk : Z.of_nat k = m - n + 1) by (subst k; lia).
  exists (map (wall tz tod) (zseq n k)). split; [|split].
  - apply (allDatesLoop_wall tz tod Htod Hback); [| |lia].
    + intros j Hj. apply (wall_le tz tod Hmono). lia.
    + apply Hmono. lia.
  - apply filter_all. intros d Hd.
    apply in_map_iff in Hd as (j & <- & Hj). apply zseq_In in Hj.
    pose proof (wall_le tz tod Hmono n j). pose proof (wall_le tz tod Hmono j m).
    apply andb_true_iff; split; apply Z.leb_le; lia.
  - rewrite length_map, zseq_length. lia.
Qed.

(** The grid where clocks never shift: for every range with
    [start <= end] there are [daysBetween start end + 1] cells, no two in
    one place, the first on [start]'s own weekday in week 0. *)
Lemma grid_layout_fixed_zone (offset start e : Z) (fuel : nat) :
  start <= e -> (6 <= fuel)%nat -> daysBetween start e < Z.of_nat fuel ->
  exists cells,
    gridCells fuel (Zone.fixed offset) start e = Some cells /\
    Z.of_nat (List.length cells) = daysBetween start e + 1 /\
    NoDup cells /\
    nth_error cells 0 = Some (0, WeekDay (LocalTime (Zone.fixed offset) start)).
Proof.
  intros Hle Hfuel6 Hfuel.
  set (tz := Zone.fixed offset).
  pose proof (fixed_regular offset start) as Hreg. fold tz in Hreg.
  destruct (firstSunday_regular tz start fuel Hreg Hfuel6) as (Hfs & _ & _).
  pose proof (regular_start tz start Hreg) as Hstart.
  destruct Hreg as (_ & Hback & Hmono).
  pose proof (TimeWithinDay_range (LocalTime tz start)) as Htod.
  unfold WeekDay in *.
  set (tod := TimeWithinDay (LocalTime tz start)) in *.
  set (n := Day (LocalTime tz start)) in *.
  clearbody tod n.
  set (w := (n + 4) mod 7) in *.
  assert (Hw : 0 <= w < 7) by (apply Z.mod_pos_bound; lia).
  assert (HK : 0 <= daysBetween start e) by (unfold daysBetween, msPerDay; zdiv).
  set (K := daysBetween start e) in *.
  set (k := Z.to_nat (K + 1)).
  assert (Hk : Z.of_nat k = K + 1) by (subst k; lia).
  assert (Hwalls : forall j, wall tz tod j = start + (j - n) * msPerDay).
  { intros j. rewrite Hstart. unfold tz. rewrite !wall_fixed. lia. }
  assert (Hdates : allDatesInRange fuel tz start e
                   = Some (map (wall tz tod) (zseq n k))).
  { unfold allDatesInRange. rewrite Hstart at 1.
    apply (allDatesLoop_wall tz tod Htod Hback); [| |lia].
    - intros j Hj. rewrite Hwalls. subst K. unfold daysBetween, msPerDay in *.
      revert Hj Hk. zdiv.
    - rewrite Hwalls. subst K. unfold daysBetween, msPerDay in *.
      revert Hk. zdiv. }
  assert (Hvis : visibleDates (map (wall tz tod) (zseq n k)) start e
                 = map (wall tz tod) (zseq n k)).
  { apply filter_all. intros d Hd.
    apply in_map_iff in Hd as (j & <- & Hj). apply zseq_In in Hj.
    rewrite Hwalls. apply andb_true_iff; split; apply Z.leb_le.
    - unfold msPerDay. nia.
    - subst K. unfold daysBetween, msPerDay in *. revert Hj Hk. zdiv. }
  assert (Hcell : forall j, cellOf tz (wall tz tod (n - w)) (wall tz tod j)
                            = ((j - (n - w)) / 7, (j + 4) mod 7)).
  { intros j. unfold cellOf, tz. rewrite getWeekNumber_fixed. fold tz.
    rewrite (getDay_wall tz tod Htod Hback). reflexivity. }
  exists (map (fun j => ((j - (n - w)) / 7, (j + 4) mod 7)) (zseq n k)).
  split; [|split; [|split]].
  - unfold gridCells. rewrite Hdates, Hfs, Hvis, map_map. f_equal.
    apply map_ext. exact Hcell.
  - rewrite length_map, zseq_length. lia.
  - apply NoDup_map_on; [|apply zseq_NoDup].
    intros a b _ _ Hab. injection Hab as Hq Hr. subst w. revert Hq Hr. zdiv.
  - destruct k as [|k']; [lia|]. cbn [zseq map nth_error]. f_equal. f_equal.
    + subst w. zdiv.
Qed.

Lemma LocalTime_fixed_make (offset y m d : Z) :
  LocalTime (Zone.fixed offset) (Date.make (Zone.fixed offset) y m d)
  = MakeDate (MakeDay y m d) 0.
Proof.
  unfold LocalTime, Date.make, UTC, Zone.fixed, MakeTime.
  generalize (MakeDay y m d). intros z. unfold MakeDate. lia.
Qed.

(** C3 on the code, in America/New_York with the default start of 2024:
    the loop lists the 366 days of the year, but 10 March and 17 March,
    the Sundays either side of the spring clock change, are both placed at
    week 10, row 0; the cells are not pairwise distinct. *)
Theorem dst_grid_cells_collide :
  let tz := Zone.usEastern in
  let start := startDate tz (Scenario.june2024 tz) None in
  let e := endDate tz start in
  exists dates fs cells,
    allDatesInRange 366 tz start e = Some dates /\
    firstSunday 366 tz start = Some fs /\
    gridCells 366 tz start e = Some cells /\
    List.length cells = 366%nat /\
    nth_error dates 69 = Some (Date.make tz 2024 2 10) /\
    nth_error dates 76 = Some (Date.make tz 2024 2 17) /\
    rectXY tz fs (Date.make tz 2024 2 10) = (140, 0) /\
    rectXY tz fs (Date.make tz 2024 2 17) = (140, 0) /\
    nth_error cells 69 = Some (10, 0) /\
    nth_error cells 76 = Some (10, 0) /\
    ~ NoDup cells.
Proof.
  cbv zeta. eexists. eexists. eexists.
  split; [vm_compute; reflexivity|].
  split; [vm_compute; reflexivity|].
  split; [vm_compute; reflexivity|].
  split; [vm_compute; reflexivity|].
  split; [vm_compute; reflexivity|].
  split; [vm_compute; reflexivity|].
  split; [vm_compute; reflexivity|].
  split; [vm_compute; reflexivity|].
  assert (H69 : forall l : list (Z * Z), nth_error l 69 = Some (10, 0) ->
                nth_error l 76 = Some (10, 0) -> ~ NoDup l).
  { intros l H1 H2 Hnd.
    assert (Hlt : (69 < List.length l)%nat)
      by (apply nth_error_Some; rewrite H1; discriminate).
    pose proof (proj1 (NoDup_nth_error l) Hnd 69%nat 76%nat Hlt) as Heq.
    rewrite H1, H2 in Heq. specialize (Heq eq_refl). discriminate. }
  assert (Ha : forall l : list (Z * Z), forall A B : Prop,
             (A /\ B) -> (A -> B -> ~ NoDup l) -> A /\ B /\ ~ NoDup l)
    by (intros l A B [HA HB] Himp; auto).
  apply Ha; [split; vm_compute; reflexivity|apply H69].
Qed.

(** Whenever the backward walk ends, it ends on a Sunday. *)
Lemma firstSundayLoop_sunday (fuel : nat) :
  forall tz d fs, firstSundayLoop fuel tz d = Some fs -> Date.getDay tz fs = 0.
Proof.
  induction fuel as [|fuel IH]; intros tz d fs; cbn [firstSundayLoop];
    destruct (Z.eqb_spec (Date.getDay tz d) 0) as [E|E]; intros H;
    try discriminate; try (injection H as <-; exact E).
  apply (IH _ _ _ H).
Qed.

(** C6: the grid anchor is the Sunday on or before [start], found by the
    backward walk: the walk can only end on a Sunday, and from a regular
    wall-clock time it does end, at most six days back.  For the single-day
    range 2024-01-01 to 2024-01-01, in every zone whose clocks never shift
    and in America/New_York, the anchor is 2023-12-31 and the one cell is
    at week 0, row 1. *)
Theorem grid_anchor_scenario_B :
  (forall tz start fuel fs,
      firstSunday fuel tz start = Some fs -> Date.getDay tz fs = 0) /\
  (forall tz start fuel,
      regular tz start -> (6 <= fuel)%nat ->
      exists fs,
        firstSunday fuel tz start = Some fs /\
        Date.getDay tz fs = 0 /\ fs <= start /\
        fs = wall tz (TimeWithinDay (LocalTime tz start))
                  (Day (LocalTime tz start) - WeekDay (LocalTime tz start))) /\
  (forall offset fuel,
      (6 <= fuel)%nat ->
      let tz := Zone.fixed offset in
      let monday := Date.make tz 2024 0 1 in
      firstSunday fuel tz monday = Some (Date.make tz 2023 11 31) /\
      gridCells fuel tz monday monday = Some [(0, 1)]) /\
  (let tz := Zone.usEastern in
   let monday := Date.make tz 2024 0 1 in
   firstSunday 6 tz monday = Some (Date.make tz 2023 11 31) /\
   gridCells 6 tz monday monday = Some [(0, 1)]).
Proof.
  split; [|split; [|split]].
  - intros tz start fuel fs. apply firstSundayLoop_sunday.
  - intros tz start fuel Hreg Hfuel.
    destruct (firstSunday_regular tz start fuel Hreg Hfuel) as (H1 & H2 & H3).
    eexists; repeat split; eassumption.
  - intros offset fuel Hfuel. cbv zeta.
    set (tz := Zone.fixed offset). set (monday := Date.make tz 2024 0 1).
    pose proof (fixed_regular offset monday) as Hreg. fold tz in Hreg.
    destruct (firstSunday_regular tz monday fuel Hreg Hfuel) as (Hfs & _ & _).
    assert (Hlt : LocalTime tz monday = MakeDate 19723 0)
      by (unfold monday, tz; rewrite LocalTime_fixed_make; reflexivity).
    rewrite Hlt in Hfs.
    assert (Hanchor : wall tz (TimeWithinDay (MakeDate 19723 0))
                        (Day (MakeDate 19723 0) - WeekDay (MakeDate 19723 0))
                      = Date.make tz 2023 11 31) by reflexivity.
    rewrite Hanchor in Hfs. split; [exact Hfs|].
    destruct (grid_layout_fixed_zone offset monday monday fuel) as (cells & Hg & Hlen & _ & Hnth).
    + lia.
    + exact Hfuel.
    + unfold daysBetween. rewrite Z.sub_diag. cbn. lia.
    + fold tz in Hg, Hnth. rewrite Hg. f_equal.
      unfold daysBetween in Hlen. rewrite Z.sub_diag in Hlen. cbn in Hlen.
      rewrite Hlt in Hnth.
      destruct cells as [|c [|c' cells]]; cbn in Hlen; try lia.
      cbn in Hnth. injection Hnth as ->. reflexivity.
  - cbv zeta. split; vm_compute; reflexivity.
Qed.

Lemma grid_anchor_scenario_B_witness :
  firstSunday 6 Zone.utc (Date.make Zone.utc 2024 0 1)
  = Some (Date.make Zone.utc 2023 11 31) /\
  gridCells 6 Zone.utc (Date.make Zone.utc 2024 0 1) (Date.make Zone.utc 2024 0 1)
  = Some [(0, 1)].
Proof.
  exact (proj1 (proj2 (proj2 grid_anchor_scenario_B)) 0 6%nat (le_n 6)).
Defined.

(** Scenario B through the component, whose range runs on to the end of
    the year: the cell of 2024-01-01 is the first drawn, at week 0, row 1. *)
Lemma scenario_B_component :
  (let tz := Zone.utc in
   let monday := Date.make tz 2024 0 1 in
   option_map (fun cells => nth_error cells 0)
              (gridCells 366 tz monday (endDate tz monday)) = Some (Some (0, 1))) /\
  (let tz := Zone.usEastern in
   let monday := Date.make tz 2024 0 1 in
   option_map (fun cells => nth_error cells 0)
              (gridCells 366 tz monday (endDate tz monday)) = Some (Some (0, 1))).
Proof. split; vm_compute; reflexivity. Qed.

(** C10 on the code, in America/New_York: from the start date
    2025-01-01 02:30 the loop's clock moves to 03:30 on 9 March, a day
    without 02:30, and stays there, so 31 December, at 03:30, falls after
    [endDate] and is left out: 364 visible cells. *)
Theorem dst_gap_drops_last_day :
  let tz := Zone.usEastern in
  let start := startDate tz (Scenario.june2024 tz) (Some (Scenario.halfPastTwo tz)) in
  let e := endDate tz start in
  exists dates cells,
    allDatesInRange 366 tz start e = Some dates /\
    gridCells 366 tz start e = Some cells /\
    List.length (visibleDates dates start e) = 364%nat /\
    List.length cells = 364%nat /\
    Str.isoDate (LocalTime tz e) = "2025-12-31"%string /\
    option_map (fun d => Str.isoDate (LocalTime tz d)) (nth_error dates 363)
    = Some "2025-12-30"%string.
Proof.
  cbv zeta. eexists. eexists.
  split; [vm_compute; reflexivity|].
  split; [vm_compute; reflexivity|].
  repeat split; vm_compute; reflexivity.
Qed.

(** The default start is local midnight on 1 January of the current
    year, and a start date given by the caller is taken as it is. *)
Lemma startDate_default (tz : TimeZone) (now : Z) :
  startDate tz now None = Date.make tz (Date.getFullYear tz now) 0 1 /\
  forall d, startDate tz now (Some d) = d.
Proof. split; reflexivity. Qed.

(** C5 on the code: a day whose sample is 0 and a day without a sample
    get different fills but the same tooltip text, "No data". *)
Theorem zero_sample_tooltip_says_no_data (interpolateBlues : Q -> string) :
  let jan1 := Date.make Zone.utc 2024 0 1 in
  let jan2 := Date.make Zone.utc 2024 0 2 in
  let data := Scenario.zeroDay in
  has (dataMap data) (Str.isoDate jan1) = true /\
  has (dataMap data) (Str.isoDate jan2) = false /\
  fill interpolateBlues data jan1 = Some (interpolateBlues (1 # 2)) /\
  fill interpolateBlues data jan2 = Some "#eee"%string /\
  valueText (tooltipValue data jan1) = "No data"%string /\
  valueText (tooltipValue data jan2) = "No data"%string /\
  forall chip formattedDate,
    tooltipHtml chip formattedDate data jan1 = tooltipHtml chip formattedDate data jan2.
Proof.
  cbv zeta. repeat split; try (vm_compute; reflexivity).
Qed.

(** Whatever the data: a sample of 0 reads "No data" in the tooltip, as a
    missing sample does, and a missing sample is filled with [#eee]. *)
Lemma zero_and_missing_share_text (data : list DayData) (d d' : Date.t) :
  get (dataMap data) (Str.isoDate d) = Some 0 ->
  get (dataMap data) (Str.isoDate d') = None ->
  valueText (tooltipValue data d) = "No data"%string /\
  valueText (tooltipValue data d') = "No data"%string /\
  forall interpolateBlues, fill interpolateBlues data d' = Some "#eee"%string.
Proof.
  intros H0 Hnone. unfold tooltipValue, fill, has. rewrite H0, Hnone.
  repeat split.
Qed.

End HeatmapFacts.

(* ================================================================== *)
(** ** Rounding in binary64 *)
(* ================================================================== *)

Module Float64Facts.
Import Float64.
Local Open Scope Q_scope.












Lemma within_eq (l h x x' y : Q) : within l h x y -> x == x' -> within l h x' y.
Proof. unfold within. intros H E. rewrite <- E. exact H. Qed.


Lemma eps_small : 0 < eps /\ eps < 1.
Proof. split; reflexivity. Qed.








End Float64Facts.

(* ================================================================== *)
(** ** Scales and tooltip placement *)
(* ================================================================== *)

Module ScaleFacts.
Import ES Spec.
Local Open Scope Q_scope.

Lemma Qlt_bool_true (a b : Q) : D3.Qlt_bool a b = true <-> a < b.
Proof.
  unfold D3.Qlt_bool. rewrite negb_true_iff.
  split.
  - intros H. apply Qnot_le_lt. intros Hle. apply Qle_bool_iff in Hle. congruence.
  - intros H. destruct (Qle_bool b a) eqn:E; [|reflexivity].
    apply Qle_bool_iff in E. lra.
Qed.

Lemma Qlt_bool_false (a b : Q) : D3.Qlt_bool a b = false <-> b <= a.
Proof.
  unfold D3.Qlt_bool. rewrite negb_false_iff. apply Qle_bool_iff.
Qed.

Lemma Qeq_bool_false (a b : Q) : Qeq_bool a b = false <-> ~ a == b.
Proof.
  split; [apply Qeq_bool_neq|].
  intros H. destruct (Qeq_bool a b) eqn:E; [|reflexivity].
  apply Qeq_bool_iff in E. contradiction.
Qed.

Lemma toDate_inject (v : Q) (z : Z) : v == inject_Z z -> D3.toDate v = z.
Proof.
  intros H. unfold D3.toDate.
  destruct (Qle_bool 0 v).
  - rewrite (Qfloor_comp _ _ H). apply Qfloor_Z.
  - rewrite (Qceiling_comp _ _ H). apply Qceiling_Z.
Qed.

(** The guard of [normalize]: it never divides by zero. *)
Lemma normalize_finite (a b x : Q) :
  exists u, D3.normalize a b x = Some u /\
            (b - a == 0 -> u == 1 # 2) /\
            (~ b - a == 0 -> u == (x - a) / (b - a)).
Proof.
  unfold D3.normalize, D3.jsdiv.
  destruct (Qeq_bool (b - a) 0) eqn:E.
  - apply Qeq_bool_iff in E. eexists; split; [reflexivity|].
    split; [reflexivity|]. intros H; contradiction.
  - apply Qeq_bool_false in E. eexists; split; [reflexivity|].
    split; [intros H; contradiction|reflexivity].
Qed.

(** A continuous scale with a defined domain maps every input to a finite
    number. *)
Lemma bimap_finite (d r : Q * Q) (x : Q) : exists v, D3.bimap d r x = Some v.
Proof.
  destruct d as [d0 d1], r as [r0 r1]. unfold D3.bimap.
  destruct (D3.Qlt_bool d1 d0).
  - destruct (normalize_finite d1 d0 x) as (u & -> & _). eexists; reflexivity.
  - destruct (normalize_finite d0 d1 x) as (u & -> & _). eexists; reflexivity.
Qed.

(** Forward then inverse over a range [[0, W]] is the identity. *)
Lemma bimap_round_trip (d0 d1 W t : Q) :
  d0 <= t <= d1 -> 0 < W ->
  exists px, D3.bimap (d0, d1) (0, W) t = Some px /\
  exists v, D3.bimap (0, W) (d0, d1) px = Some v /\ v == t.
Proof.
  intros Ht HW. unfold D3.bimap.
  assert (Hd : D3.Qlt_bool d1 d0 = false) by (apply Qlt_bool_false; lra).
  assert (Hr : D3.Qlt_bool W 0 = false) by (apply Qlt_bool_false; lra).
  rewrite Hd, Hr.
  destruct (normalize_finite d0 d1 t) as (u & -> & Hu0 & Hu1).
  cbn [option_map]. eexists; split; [reflexivity|].
  destruct (normalize_finite 0 W (D3.interpolateNumber 0 W u)) as (u' & -> & _ & Hu').
  cbn [option_map]. eexists; split; [reflexivity|].
  assert (HW0 : ~ W - 0 == 0) by lra.
  specialize (Hu' HW0).
  assert (Huu : u' == u).
  { rewrite Hu'. unfold D3.interpolateNumber. field. lra. }
  unfold D3.interpolateNumber. rewrite Huu.
  destruct (Qeq_dec (d1 - d0) 0) as [E|E].
  - rewrite (Hu0 E). lra.
  - rewrite (Hu1 E). field. exact E.
Qed.

(** On a domain without width the scale gives the middle of its range. *)
Lemma bimap_flat (d0 d1 r0 r1 x : Q) :
  d0 == d1 ->
  exists v, D3.bimap (d0, d1) (r0, r1) x = Some v /\ v == (r0 + r1) * (1 # 2).
Proof.
  intros Hd. unfold D3.bimap.
  assert (Hlt : D3.Qlt_bool d1 d0 = false) by (apply Qlt_bool_false; lra).
  rewrite Hlt.
  destruct (normalize_finite d0 d1 x) as (u & -> & Hu & _).
  eexists; split; [reflexivity|].
  unfold D3.interpolateNumber. rewrite Hu by lra. lra.
Qed.

Lemma width_floor (clientWidth : Z) : 1200 <= TimeSeriesPlot.width clientWidth.
Proof.
  unfold TimeSeriesPlot.width.
  change (1200 : Q) with (inject_Z 1200). rewrite <- Zle_Qle. lia.
Qed.

(** The time extent of a series whose first time parses is defined. *)
Lemma extent_defined (values : list (option Z)) (t0 : Z) :
  exists lo hi, D3.extent (Some t0 :: values) = Some (lo, hi) /\ (lo <= t0 <= hi)%Z.
Proof.
  unfold D3.extent. cbn [fold_left].
  assert (H : forall l lo hi, (lo <= t0 <= hi)%Z ->
            exists lo' hi',
              fold_left (fun acc v =>
                match v, acc with
                | None, _ => acc
                | Some x, None => Some (x, x)
                | Some x, Some (lo, hi) =>
                    Some (if (x <? lo)%Z then x else lo, if (hi <? x)%Z then x else hi)
                end) l (Some (lo, hi)) = Some (lo', hi') /\ (lo' <= t0 <= hi')%Z).
  { induction l as [|v l IH]; intros lo hi Hb; cbn [fold_left].
    - exists lo, hi. split; [reflexivity|exact Hb].
    - destruct v as [x|]; [|apply IH; exact Hb].
      apply IH. destruct (Z.ltb_spec x lo), (Z.ltb_spec hi x); lia. }
  apply H. lia.
Qed.

(** A series whose times are all the one instant [d] has the extent
    [[d, d]]. *)
Lemma extent_constant (d : Z) (n : nat) :
  D3.extent (repeat (Some d) (S n)) = Some (d, d).
Proof.
  unfold D3.extent. cbn [repeat fold_left].
  induction n as [|n IH]; cbn [repeat fold_left]; [reflexivity|].
  rewrite Z.ltb_irrefl. exact IH.
Qed.

(** Without rounding the inverse undoes the scale exactly: for a time
    [t] within the extent, [D3.invert] of [D3.scale] is [t]. *)
Lemma exact_round_trip
  (tz : TimeZone) (data : list TimeSeriesPlot.DataPoint) (clientWidth lo hi t : Z) :
  D3.extent (map (TimeSeriesPlot.dateOf tz) data) = Some (lo, hi) ->
  (lo <= t <= hi)%Z ->
  exists px,
    TimeSeriesPlot.x tz data clientWidth (Some t) = Some px /\
    TimeSeriesPlot.xInvert tz data clientWidth px = Some t.
Proof.
  intros Hext Ht.
  unfold TimeSeriesPlot.x, TimeSeriesPlot.xInvert, TimeSeriesPlot.xScale,
    D3.scale, D3.invert.
  cbn [D3.domain D3.range]. rewrite Hext. cbn [TimeSeriesPlot.asDomain option_map].
  pose proof (width_floor clientWidth) as Hw.
  destruct (bimap_round_trip (inject_Z lo) (inject_Z hi)
              (TimeSeriesPlot.innerWidth clientWidth) (inject_Z t))
    as (px & Hpx & v & Hv & Hvt).
  - rewrite <- !Zle_Qle. exact Ht.
  - unfold TimeSeriesPlot.innerWidth, TimeSeriesPlot.margin. cbn. lra.
  - exists px. split; [exact Hpx|].
    rewrite Hv. cbn [option_map]. f_equal. apply toDate_inject. exact Hvt.
Qed.

(** In binary64 the round trip is not exact: on Scenario A, 1100 pixels
    wide, the time 2024-01-01T08:09:36.000Z is drawn at pixel 374, and
    pixel 374 inverts to 08:09:35.999, the millisecond before. *)
Lemma round_trip_not_exact :
  exists px,
    Float64.x Zone.utc Scenario.seriesA 1200 (Some 1704096576000%Z) = Some px /\
    px == 374 /\
    Float64.xInvert Zone.utc Scenario.seriesA 1200 px = Some 1704096575999%Z.
Proof.
  eexists. split; [vm_compute; reflexivity|].
  split; vm_compute; reflexivity.
Qed.





(** C8: on a domain without width each scale still gives a finite value
    for every input: the middle of the range for the position scale (all
    times equal) and for the value scale (greatest total 0), the middle of
    the ramp for the colour scale (least value = greatest value). *)
Theorem degenerate_domain_finite :
  (forall tz data clientWidth d t,
      D3.extent (map (TimeSeriesPlot.dateOf tz) data) = Some (d, d) ->
      exists px, TimeSeriesPlot.x tz data clientWidth (Some t) = Some px /\
                 px == TimeSeriesPlot.innerWidth clientWidth * (1 # 2)) /\
  (forall data clientWidth v,
      TimeSeriesPlot.maxTotal data == 0 ->
      exists py, TimeSeriesPlot.y data clientWidth v = Some py /\
                 py == TimeSeriesPlot.innerHeight clientWidth * (1 # 2)) /\
  (forall interpolateBlues data v,
      CalendarHeatmap.minValue data == CalendarHeatmap.maxValue data ->
      CalendarHeatmap.colorScale interpolateBlues data v
      = Some (interpolateBlues (1 # 2))).
Proof.
  split; [|split].
  - intros tz data clientWidth d t Hext.
    unfold TimeSeriesPlot.x, TimeSeriesPlot.xScale, D3.scale.
    cbn [D3.domain D3.range]. rewrite Hext. cbn [TimeSeriesPlot.asDomain option_map].
    destruct (bimap_flat (inject_Z d) (inject_Z d) 0
                (TimeSeriesPlot.innerWidth clientWidth) (inject_Z t))
      as (v & Hv & Heq); [reflexivity|].
    exists v. split; [exact Hv|]. rewrite Heq. lra.
  - intros data clientWidth v Hmax.
    unfold TimeSeriesPlot.y, TimeSeriesPlot.yScale, D3.scale.
    cbn [D3.domain D3.range].
    destruct (bimap_flat 0 (TimeSeriesPlot.maxTotal data)
                (TimeSeriesPlot.innerHeight clientWidth) 0 v)
      as (p & Hp & Heq); [rewrite Hmax; reflexivity|].
    exists p. split; [exact Hp|]. rewrite Heq. lra.
  - intros interpolateBlues data v Hmm.
    unfold CalendarHeatmap.colorScale, D3.sequential.
    apply Qeq_bool_iff in Hmm. rewrite Hmm. reflexivity.
Qed.

Lemma degenerate_domain_finite_witness :
  exists px,
    TimeSeriesPlot.x Zone.utc [TimeSeriesPlot.mkDataPoint "2024-01-01T00:00Z" 10 100]
      1200 (Some 1704067200000%Z) = Some px /\
    px == TimeSeriesPlot.innerWidth 1200 * (1 # 2).
Proof.
  apply (proj1 degenerate_domain_finite Zone.utc
           [TimeSeriesPlot.mkDataPoint "2024-01-01T00:00Z" 10 100] 1200%Z
           1704067200000%Z 1704067200000%Z).
  reflexivity.
Defined.

(** Every scale with a defined domain is finite on every input. *)
Lemma scale_finite (s : D3.Continuous) (d : Q * Q) (x : Q) :
  D3.domain s = Some d -> exists v, D3.scale s x = Some v.
Proof. intros H. unfold D3.scale. rewrite H. apply bimap_finite. Qed.

(** C4 on the code: in a heatmap container 200 wide the pointer at
    (50, 50) is inside the drawable area.  The default placement, left = 60,
    would pass the right edge (60 + 150 + 10 > 200), so the handler, under
    its comment "Keep tooltip inside container", moves the tooltip to the
    other side of the pointer, left = 50 - 150 - 10 = -110: the box is not
    within the container. *)
Theorem heatmap_tooltip_leaves_container :
  let W := inject_Z 200 in
  let p := CalendarHeatmap.tooltipPosition 200 50 50 in
  (0 < 50 < W /\ 0 < 50 < CalendarHeatmap.height) /\
  W < 50 + CalendarHeatmap.padding + CalendarHeatmap.tooltipWidth
      + CalendarHeatmap.padding /\
  fst p == -110 /\ snd p == 50 /\
  ~ (0 <= fst p /\ fst p + CalendarHeatmap.tooltipWidth <= W /\
     0 <= snd p /\ snd p + CalendarHeatmap.tooltipHeight <= CalendarHeatmap.height).
Proof.
  cbv zeta. split; [|split; [|split; [|split]]].
  - vm_compute. repeat split; reflexivity.
  - vm_compute. reflexivity.
  - vm_compute. reflexivity.
  - vm_compute. reflexivity.
  - vm_compute. intros [H _]. apply H. reflexivity.
Qed.

(** Where the tooltips do stay inside.  Time series: for a pointer inside
    the plot area the tooltip starts at the pointer (moved by the margins),
    is moved left by the tooltip width plus padding when that would pass
    [innerWidth] and up by the tooltip height plus padding when that would
    pass [innerHeight], each on its own, and its box lies within the
    [width] by [height] surface.  Heatmap: the tooltip starts right of the
    pointer by the padding and level with it, a tooltip that would pass the
    container's right edge has its left edge the tooltip width plus padding
    left of the pointer, one that would pass [height] is moved up by the
    tooltip height plus padding, and its box lies within the container when
    the container is at least 330 wide. *)
Lemma tooltip_placement :
  (forall clientWidth mouseX mouseY,
      0 < mouseX < TimeSeriesPlot.innerWidth clientWidth ->
      0 < mouseY < TimeSeriesPlot.innerHeight clientWidth ->
      let p := TimeSeriesPlot.tooltipPosition clientWidth mouseX mouseY in
      let left0 := mouseX + TimeSeriesPlot.mleft TimeSeriesPlot.margin in
      let top0 := mouseY + TimeSeriesPlot.mtop TimeSeriesPlot.margin in
      let w := TimeSeriesPlot.tooltipWidth + TimeSeriesPlot.padding in
      let h := TimeSeriesPlot.tooltipHeight + TimeSeriesPlot.padding in
      (TimeSeriesPlot.innerWidth clientWidth < left0 + w -> fst p == left0 - w) /\
      (left0 + w <= TimeSeriesPlot.innerWidth clientWidth -> fst p == left0) /\
      (TimeSeriesPlot.innerHeight clientWidth < top0 + h -> snd p == top0 - h) /\
      (top0 + h <= TimeSeriesPlot.innerHeight clientWidth -> snd p == top0) /\
      0 <= fst p /\
      fst p + TimeSeriesPlot.tooltipWidth <= TimeSeriesPlot.width clientWidth /\
      0 <= snd p /\
      snd p + TimeSeriesPlot.tooltipHeight <= TimeSeriesPlot.height clientWidth) /\
  (forall containerWidth mouseX mouseY,
      (330 <= containerWidth)%Z ->
      0 < mouseX < inject_Z containerWidth ->
      0 < mouseY < CalendarHeatmap.height ->
      let p := CalendarHeatmap.tooltipPosition containerWidth mouseX mouseY in
      let left0 := mouseX + CalendarHeatmap.padding in
      let w := CalendarHeatmap.tooltipWidth + CalendarHeatmap.padding in
      let h := CalendarHeatmap.tooltipHeight + CalendarHeatmap.padding in
      (inject_Z containerWidth < left0 + w -> fst p == mouseX - w) /\
      (left0 + w <= inject_Z containerWidth -> fst p == left0) /\
      (CalendarHeatmap.height < mouseY + h -> snd p == mouseY - h) /\
      (mouseY + h <= CalendarHeatmap.height -> snd p == mouseY) /\
      0 <= fst p /\
      fst p + CalendarHeatmap.tooltipWidth <= inject_Z containerWidth /\
      0 <= snd p /\
      snd p + CalendarHeatmap.tooltipHeight <= CalendarHeatmap.height).
Proof.
  split.
  - intros clientWidth mouseX mouseY HX HY. cbv zeta.
    pose proof (width_floor clientWidth) as Hw.
    unfold TimeSeriesPlot.tooltipPosition, TimeSeriesPlot.innerWidth,
      TimeSeriesPlot.innerHeight, TimeSeriesPlot.height, TimeSeriesPlot.margin,
      TimeSeriesPlot.tooltipWidth, TimeSeriesPlot.tooltipHeight,
      TimeSeriesPlot.padding in *.
    cbn [TimeSeriesPlot.mtop TimeSeriesPlot.mleft TimeSeriesPlot.mright
         TimeSeriesPlot.mbottom fst snd] in *.
    set (W := TimeSeriesPlot.width clientWidth) in *. clearbody W.
    destruct (D3.Qlt_bool (W * (9 # 16) - 40 - 40) (mouseY + 40 + 80 + 10)) eqn:Ev;
      destruct (D3.Qlt_bool (W - 60 - 40) (mouseX + 60 + 150 + 10)) eqn:Eh;
      try apply Qlt_bool_true in Ev; try apply Qlt_bool_false in Ev;
      try apply Qlt_bool_true in Eh; try apply Qlt_bool_false in Eh;
      cbn [fst snd]; repeat split; intros; lra.
  - intros containerWidth mouseX mouseY HW HX HY. cbv zeta.
    assert (HW' : 330 <= inject_Z containerWidth)
      by (change (330 : Q) with (inject_Z 330); rewrite <- Zle_Qle; exact HW).
    assert (Hh : CalendarHeatmap.height == 230) by reflexivity.
    unfold CalendarHeatmap.tooltipPosition, CalendarHeatmap.tooltipWidth,
      CalendarHeatmap.tooltipHeight, CalendarHeatmap.padding in *.
    set (H := CalendarHeatmap.height) in *. clearbody H.
    set (W := inject_Z containerWidth) in *. clearbody W.
    destruct (D3.Qlt_bool W (mouseX + 10 + 150 + 10)) eqn:Eh;
      destruct (D3.Qlt_bool H (mouseY + 60 + 10)) eqn:Ev;
      try apply Qlt_bool_true in Ev; try apply Qlt_bool_false in Ev;
      try apply Qlt_bool_true in Eh; try apply Qlt_bool_false in Eh;
      cbn [fst snd]; repeat split; intros; lra.
Qed.

Lemma tooltip_placement_witness :
  let p := TimeSeriesPlot.tooltipPosition 1200 1000 100 in
  fst p == 1000 + 60 - (150 + 10) /\ snd p == 100 + 40.
Proof.
  cbv zeta.
  assert (HX : 0 < 1000 < TimeSeriesPlot.innerWidth 1200)
    by (vm_compute; split; reflexivity).
  assert (HY : 0 < 100 < TimeSeriesPlot.innerHeight 1200)
    by (vm_compute; split; reflexivity).
  destruct (proj1 tooltip_placement 1200%Z 1000 100 HX HY)
    as (Hl & _ & _ & Ht & _).
  split.
  - apply Hl. vm_compute. reflexivity.
  - apply Ht. vm_compute. discriminate.
Defined.

End ScaleFacts.

(* ================================================================== *)
(** ** Extents, greatest and least values *)
(* ================================================================== *)

Module ExtentFacts.
Local Open Scope Z_scope.

Ltac conj := repeat match goal with |- _ /\ _ => split end.

Lemma extent_from (l : list (option Z)) :
  forall a b, a <= b ->
  exists lo hi,
    fold_left (fun acc v =>
                 match v, acc with
                 | None, _ => acc
                 | Some x, None => Some (x, x)
                 | Some x, Some (lo, hi) =>
                     Some (if x <? lo then x else lo, if hi <? x then x else hi)
                 end) l (Some (a, b)) = Some (lo, hi) /\
    lo <= a /\ b <= hi /\
    (forall t, In (Some t) l -> lo <= t <= hi) /\
    (lo = a \/ In (Some lo) l) /\ (hi = b \/ In (Some hi) l).
Proof.
  induction l as [|v l IH]; intros a b Hab; cbn [fold_left].
  - exists a, b. conj; auto; try lia. intros t [].
  - destruct v as [x|].
    + destruct (IH (if x <? a then x else a) (if b <? x then x else b))
        as (lo & hi & Hf & Hlo & Hhi & Hall & Hat_lo & Hat_hi).
      { destruct (Z.ltb_spec x a), (Z.ltb_spec b x); lia. }
      exists lo, hi. split; [exact Hf|].
      split; [destruct (Z.ltb_spec x a); lia|].
      split; [destruct (Z.ltb_spec b x); lia|].
      split; [|split].
      * intros t [Ht|Ht]; [|apply Hall; exact Ht].
        injection Ht as <-. destruct (Z.ltb_spec x a), (Z.ltb_spec b x); lia.
      * destruct Hat_lo as [E|H']; [|right; right; exact H'].
        destruct (Z.ltb_spec x a); [right; left; rewrite E; reflexivity | left; exact E].
      * destruct Hat_hi as [E|H']; [|right; right; exact H'].
        destruct (Z.ltb_spec b x); [right; left; rewrite E; reflexivity | left; exact E].
    + destruct (IH a b Hab) as (lo & hi & Hf & Hlo & Hhi & Hall & Hat_lo & Hat_hi).
      exists lo, hi. split; [exact Hf|].
      conj; try lia.
      * intros t [Ht|Ht]; [discriminate | apply Hall; exact Ht].
      * destruct Hat_lo as [->|H']; [left; reflexivity | right; right; exact H'].
      * destruct Hat_hi as [->|H']; [left; reflexivity | right; right; exact H'].
Qed.

(** [d3.extent] over dates of which one at least is valid: the least and
    the greatest valid date, both taken from the list. *)
Lemma extent_spec (l : list (option Z)) (t : Z) :
  In (Some t) l ->
  exists lo hi,
    D3.extent l = Some (lo, hi) /\
    (forall t', In (Some t') l -> lo <= t' <= hi) /\
    In (Some lo) l /\ In (Some hi) l.
Proof.
  unfold D3.extent.
  induction l as [|v l IH]; intros Hin; [destruct Hin|].
  cbn [fold_left]. destruct v as [x|].
  - destruct (extent_from l x x (Z.le_refl x))
      as (lo & hi & Hf & Hlo & Hhi & Hall & Hat_lo & Hat_hi).
    exists lo, hi. split; [exact Hf|]. conj.
    + intros t' [H|H]; [injection H as <-; lia | apply Hall; exact H].
    + destruct Hat_lo as [->|H']; [left; reflexivity | right; exact H'].
    + destruct Hat_hi as [->|H']; [left; reflexivity | right; exact H'].
  - destruct Hin as [Hin|Hin]; [discriminate|].
    destruct (IH Hin) as (lo & hi & Hf & Hall & Hl & Hh).
    exists lo, hi. split; [exact Hf|]. conj.
    + intros t' [H|H]; [discriminate | apply (Hall _ H)].
    + right; exact Hl.
    + right; exact Hh.
Qed.

Local Open Scope Q_scope.

Lemma max_from (l : list Q) :
  forall m0,
  exists m,
    fold_left (fun acc v =>
                 match acc with
                 | None => Some v
                 | Some m => if D3.Qlt_bool m v then Some v else Some m
                 end) l (Some m0) = Some m /\
    m0 <= m /\ (forall v, In v l -> v <= m) /\ (m = m0 \/ In m l).
Proof.
  induction l as [|x l IH]; intros m0; cbn [fold_left].
  - exists m0. conj; auto; try lra. intros v [].
  - destruct (D3.Qlt_bool m0 x) eqn:E.
    + apply ScaleFacts.Qlt_bool_true in E.
      destruct (IH x) as (m & Hf & Hm & Hall & Hat).
      exists m. split; [exact Hf|]. conj; [lra| |].
      * intros v [<-|Hv]; [exact Hm | apply Hall; exact Hv].
      * destruct Hat as [->|H']; [right; left; reflexivity | right; right; exact H'].
    + apply ScaleFacts.Qlt_bool_false in E.
      destruct (IH m0) as (m & Hf & Hm & Hall & Hat).
      exists m. split; [exact Hf|]. conj; [exact Hm| |].
      * intros v [<-|Hv]; [lra | apply Hall; exact Hv].
      * destruct Hat as [->|H']; [left; reflexivity | right; right; exact H'].
Qed.

Lemma min_from (l : list Q) :
  forall m0,
  exists m,
    fold_left (fun acc v =>
                 match acc with
                 | None => Some v
                 | Some m => if D3.Qlt_bool v m then Some v else Some m
                 end) l (Some m0) = Some m /\
    m <= m0 /\ (forall v, In v l -> m <= v) /\ (m = m0 \/ In m l).
Proof.
  induction l as [|x l IH]; intros m0; cbn [fold_left].
  - exists m0. conj; auto; try lra. intros v [].
  - destruct (D3.Qlt_bool x m0) eqn:E.
    + apply ScaleFacts.Qlt_bool_true in E.
      destruct (IH x) as (m & Hf & Hm & Hall & Hat).
      exists m. split; [exact Hf|]. conj; [lra| |].
      * intros v [<-|Hv]; [exact Hm | apply Hall; exact Hv].
      * destruct Hat as [->|H']; [right; left; reflexivity | right; right; exact H'].
    + apply ScaleFacts.Qlt_bool_false in E.
      destruct (IH m0) as (m & Hf & Hm & Hall & Hat).
      exists m. split; [exact Hf|]. conj; [exact Hm| |].
      * intros v [<-|Hv]; [lra | apply Hall; exact Hv].
      * destruct Hat as [->|H']; [left; reflexivity | right; right; exact H'].
Qed.

(** [d3.max] and [d3.min] of a list that is not empty. *)
Lemma max_spec (l : list Q) (v0 : Q) :
  In v0 l -> exists m, D3.max l = Some m /\ (forall v, In v l -> v <= m) /\ In m l.
Proof.
  unfold D3.max. destruct l as [|x l]; intros Hin; [destruct Hin|].
  cbn [fold_left]. destruct (max_from l x) as (m & Hf & Hm & Hall & Hat).
  exists m. split; [exact Hf|]. split.
  - intros v [<-|Hv]; [exact Hm | apply Hall; exact Hv].
  - destruct Hat as [->|H']; [left; reflexivity | right; exact H'].
Qed.

Lemma min_spec (l : list Q) (v0 : Q) :
  In v0 l -> exists m, D3.min l = Some m /\ (forall v, In v l -> m <= v) /\ In m l.
Proof.
  unfold D3.min. destruct l as [|x l]; intros Hin; [destruct Hin|].
  cbn [fold_left]. destruct (min_from l x) as (m & Hf & Hm & Hall & Hat).
  exists m. split; [exact Hf|]. split.
  - intros v [<-|Hv]; [exact Hm | apply Hall; exact Hv].
  - destruct Hat as [->|H']; [left; reflexivity | right; exact H'].
Qed.

(** [v || 0] is numerically [v]. *)
Lemma orZero_eq (m : Q) : CalendarHeatmap.orZero (Some m) == m.
Proof.
  unfold CalendarHeatmap.orZero. destruct (Qeq_bool m 0) eqn:E; [|reflexivity].
  apply Qeq_bool_iff in E. rewrite E. reflexivity.
Qed.

(** Position in an interval, and interpolation, stay within bounds. *)
Lemma normalize_unit (a b x : Q) :
  a <= x <= b ->
  exists u, D3.normalize a b x = Some u /\ 0 <= u <= 1 /\
            (a < b -> u * (b - a) == x - a).
Proof.
  intros Hx. destruct (ScaleFacts.normalize_finite a b x) as (u & Hn & H0 & H1).
  exists u. split; [exact Hn|].
  destruct (Qeq_dec (b - a) 0) as [E|E].
  - rewrite (H0 E). split; [lra|]. intros; lra.
  - assert (Hpos : 0 < b - a) by lra.
    rewrite (H1 E). split; [split|].
    + apply Qle_shift_div_l; [exact Hpos|lra].
    + apply Qle_shift_div_r; [exact Hpos|lra].
    + intros _. field. exact E.
Qed.

Lemma normalize_mono (a b x1 x2 u1 u2 : Q) :
  x1 <= x2 ->
  D3.normalize a b x1 = Some u1 -> D3.normalize a b x2 = Some u2 -> 0 <= b - a ->
  u1 <= u2.
Proof.
  intros Hx H1 H2 Hab.
  destruct (ScaleFacts.normalize_finite a b x1) as (v1 & Hn1 & H10 & H11).
  destruct (ScaleFacts.normalize_finite a b x2) as (v2 & Hn2 & H20 & H21).
  rewrite H1 in Hn1. rewrite H2 in Hn2.
  injection Hn1 as <-. injection Hn2 as <-.
  destruct (Qeq_dec (b - a) 0) as [E|E].
  - rewrite (H10 E), (H20 E). lra.
  - rewrite (H11 E), (H21 E). unfold Qdiv.
    apply Qmult_le_compat_r; [lra|].
    apply Qlt_le_weak. apply Qinv_lt_0_compat. lra.
Qed.

End ExtentFacts.

(* ================================================================== *)
(** ** TimeSeriesPlot: scales, pointer and fetch, further properties *)
(* ================================================================== *)

Module PlotProperties.
Import ES Spec TimeSeriesPlot.
Local Open Scope Q_scope.

Ltac conj := repeat match goal with |- _ /\ _ => split end.

Lemma innerWidth_floor (clientWidth : Z) : 1100 <= innerWidth clientWidth.
Proof.
  pose proof (ScaleFacts.width_floor clientWidth).
  unfold innerWidth, margin. cbn [mleft mright]. lra.
Qed.

Lemma innerHeight_floor (clientWidth : Z) : 595 <= innerHeight clientWidth.
Proof.
  pose proof (ScaleFacts.width_floor clientWidth).
  unfold innerHeight, height, margin. cbn [mtop mbottom]. lra.
Qed.

Lemma extent_some_has (l : list (option Z)) (p : Z * Z) :
  D3.extent l = Some p -> exists t, In (Some t) l.
Proof.
  unfold D3.extent. induction l as [|v l IH]; cbn [fold_left]; [discriminate|].
  destruct v as [t|]; intros H.
  - exists t. left. reflexivity.
  - destruct (IH H) as (t & Ht). exists t. right. exact Ht.
Qed.

Lemma extent_ordered (l : list (option Z)) (lo hi : Z) :
  D3.extent l = Some (lo, hi) -> (lo <= hi)%Z.
Proof.
  intros H. destruct (extent_some_has l _ H) as (t & Ht).
  destruct (ExtentFacts.extent_spec l t Ht) as (lo' & hi' & He & Hall & _).
  rewrite H in He. injection He as <- <-. specialize (Hall t Ht). lia.
Qed.

(** The position scale on a time within the extent. *)
Lemma x_within (tz : TimeZone) (data : list DataPoint) (clientWidth lo hi t : Z) :
  D3.extent (map (dateOf tz) data) = Some (lo, hi) -> (lo <= t <= hi)%Z ->
  exists px, x tz data clientWidth (Some t) = Some px /\
             0 <= px <= innerWidth clientWidth.
Proof.
  intros Hext Ht.
  unfold x, xScale, D3.scale. cbn [D3.domain D3.range]. rewrite Hext.
  cbn [asDomain option_map]. unfold D3.bimap.
  assert (Hlt : D3.Qlt_bool (inject_Z hi) (inject_Z lo) = false).
  { apply ScaleFacts.Qlt_bool_false. rewrite <- Zle_Qle. lia. }
  rewrite Hlt.
  destruct (ExtentFacts.normalize_unit (inject_Z lo) (inject_Z hi) (inject_Z t))
    as (u & -> & Hu & _).
  { rewrite <- !Zle_Qle. exact Ht. }
  cbn [option_map]. eexists; split; [reflexivity|].
  pose proof (innerWidth_floor clientWidth) as HW.
  unfold D3.interpolateNumber. nra.
Qed.

(** Every sample whose time parses is drawn within the plot's width. *)
Theorem samples_within_plot_width
  (tz : TimeZone) (data : list DataPoint) (clientWidth : Z) (d : DataPoint) (t : Z) :
  In d data -> dateOf tz d = Some t ->
  exists px, x tz data clientWidth (Some t) = Some px /\
             0 <= px <= innerWidth clientWidth.
Proof.
  intros Hd Ht.
  assert (Hin : In (Some t) (map (dateOf tz) data)).
  { apply in_map_iff. exists d. split; assumption. }
  destruct (ExtentFacts.extent_spec _ t Hin) as (lo & hi & Hext & Hall & _).
  apply (x_within tz data clientWidth lo hi t Hext). apply Hall. exact Hin.
Qed.

Lemma samples_within_plot_width_witness :
  exists px, x Zone.utc Scenario.seriesA 1200 (Some 1704153600000%Z) = Some px /\
             0 <= px <= innerWidth 1200.
Proof.
  apply (samples_within_plot_width Zone.utc Scenario.seriesA 1200
           (mkDataPoint "2024-01-02T00:00Z" 20 100) 1704153600000).
  - right. left. reflexivity.
  - reflexivity.
Defined.

(** The position scale keeps time order, and on an extent with width it
    puts the first instant at 0 and the last at [innerWidth]. *)
Theorem position_scale_keeps_order
  (tz : TimeZone) (data : list DataPoint) (clientWidth lo hi : Z) :
  D3.extent (map (dateOf tz) data) = Some (lo, hi) ->
  (forall t1 t2 p1 p2,
      (t1 <= t2)%Z ->
      x tz data clientWidth (Some t1) = Some p1 ->
      x tz data clientWidth (Some t2) = Some p2 -> p1 <= p2) /\
  ((lo < hi)%Z ->
   exists p0 p1,
     x tz data clientWidth (Some lo) = Some p0 /\ p0 == 0 /\
     x tz data clientWidth (Some hi) = Some p1 /\ p1 == innerWidth clientWidth).
Proof.
  intros Hext.
  pose proof (extent_ordered _ _ _ Hext) as Hle.
  pose proof (innerWidth_floor clientWidth) as HW.
  assert (Hlt : D3.Qlt_bool (inject_Z hi) (inject_Z lo) = false).
  { apply ScaleFacts.Qlt_bool_false. rewrite <- Zle_Qle. lia. }
  unfold x, xScale, D3.scale. cbn [D3.domain D3.range]. rewrite Hext.
  cbn [asDomain option_map]. unfold D3.bimap. rewrite Hlt.
  split.
  - intros t1 t2 p1 p2 Ht H1 H2.
    destruct (D3.normalize (inject_Z lo) (inject_Z hi) (inject_Z t1)) as [u1|] eqn:E1;
      [|discriminate].
    destruct (D3.normalize (inject_Z lo) (inject_Z hi) (inject_Z t2)) as [u2|] eqn:E2;
      [|discriminate].
    injection H1 as <-. injection H2 as <-.
    assert (Hu : u1 <= u2).
    { apply (ExtentFacts.normalize_mono (inject_Z lo) (inject_Z hi)
               (inject_Z t1) (inject_Z t2)); auto.
      - rewrite <- Zle_Qle. exact Ht.
      - assert (inject_Z lo <= inject_Z hi) by (rewrite <- Zle_Qle; exact Hle). lra. }
    unfold D3.interpolateNumber. nra.
  - intros Hlh.
    assert (HQ : inject_Z lo < inject_Z hi) by (rewrite <- Zlt_Qlt; exact Hlh).
    destruct (ExtentFacts.normalize_unit (inject_Z lo) (inject_Z hi) (inject_Z lo))
      as (u0 & -> & _ & H0); [lra|].
    destruct (ExtentFacts.normalize_unit (inject_Z lo) (inject_Z hi) (inject_Z hi))
      as (u1 & -> & _ & H1); [lra|].
    specialize (H0 HQ). specialize (H1 HQ).
    cbn [option_map]. eexists. eexists.
    split; [reflexivity|]. split; [|split; [reflexivity|]];
      unfold D3.interpolateNumber.
    + assert (u0 == 0) by nra. nra.
    + assert (u1 == 1) by nra. nra.
Qed.

Lemma position_scale_keeps_order_witness :
  exists p0 p1,
    x Zone.utc Scenario.seriesA 1200 (Some 1704067200000%Z) = Some p0 /\ p0 == 0 /\
    x Zone.utc Scenario.seriesA 1200 (Some 1704153600000%Z) = Some p1 /\
    p1 == innerWidth 1200.
Proof.
  apply (proj2 (position_scale_keeps_order Zone.utc Scenario.seriesA 1200
                  1704067200000 1704153600000 eq_refl)).
  reflexivity.
Defined.

(** [maxTotal] is numerically the greatest total, and bounds every one. *)
Lemma maxTotal_bounds (data : list DataPoint) (d : DataPoint) :
  In d data -> total d <= maxTotal data.
Proof.
  intros Hd. unfold maxTotal.
  destruct (ExtentFacts.max_spec (map total data) (total d)) as (m & -> & Hall & _).
  { apply in_map. exact Hd. }
  assert (Hm : total d <= m) by (apply Hall; apply in_map; exact Hd).
  destruct (Qeq_bool m 0) eqn:E; [|exact Hm].
  apply Qeq_bool_iff in E. lra.
Qed.

(** The value scale is inverted: 0 is drawn at the bottom of the plot, the
    greatest total at the top, a greater value never lower than a smaller
    one, and every sample whose allocation lies between 0 and its total is
    drawn within the plot's height. *)
Theorem value_scale_inverted (data : list DataPoint) (clientWidth : Z) :
  0 < maxTotal data ->
  (exists p0 p1,
      y data clientWidth 0 = Some p0 /\ p0 == innerHeight clientWidth /\
      y data clientWidth (maxTotal data) = Some p1 /\ p1 == 0) /\
  (forall v1 v2 p1 p2,
      v1 <= v2 -> y data clientWidth v1 = Some p1 -> y data clientWidth v2 = Some p2 ->
      p2 <= p1) /\
  (forall d, In d data -> 0 <= allocated d <= total d ->
             exists p, y data clientWidth (allocated d) = Some p /\
                       0 <= p <= innerHeight clientWidth).
Proof.
  intros Hmax.
  pose proof (innerHeight_floor clientWidth) as HH.
  assert (Hlt : D3.Qlt_bool (maxTotal data) 0 = false)
    by (apply ScaleFacts.Qlt_bool_false; lra).
  unfold y, yScale, D3.scale. cbn [D3.domain D3.range]. unfold D3.bimap.
  rewrite Hlt. conj.
  - destruct (ExtentFacts.normalize_unit 0 (maxTotal data) 0)
      as (u0 & -> & _ & H0); [lra|].
    destruct (ExtentFacts.normalize_unit 0 (maxTotal data) (maxTotal data))
      as (u1 & -> & _ & H1); [lra|].
    specialize (H0 Hmax). specialize (H1 Hmax).
    cbn [option_map]. eexists. eexists.
    split; [reflexivity|]. split; [|split; [reflexivity|]];
      unfold D3.interpolateNumber.
    + assert (u0 == 0) by nra. nra.
    + assert (u1 == 1) by nra. nra.
  - intros v1 v2 p1 p2 Hv H1 H2.
    destruct (D3.normalize 0 (maxTotal data) v1) as [u1|] eqn:E1; [|discriminate].
    destruct (D3.normalize 0 (maxTotal data) v2) as [u2|] eqn:E2; [|discriminate].
    injection H1 as <-. injection H2 as <-.
    assert (Hu : u1 <= u2).
    { apply (ExtentFacts.normalize_mono 0 (maxTotal data) v1 v2); auto. lra. }
    unfold D3.interpolateNumber. nra.
  - intros d Hd Hd'.
    pose proof (maxTotal_bounds data d Hd) as Hb.
    destruct (ExtentFacts.normalize_unit 0 (maxTotal data) (allocated d))
      as (u & -> & Hu & _); [lra|].
    cbn [option_map]. eexists. split; [reflexivity|].
    unfold D3.interpolateNumber. nra.
Qed.

Lemma value_scale_inverted_witness :
  exists p, y Scenario.seriesA 1200 10 = Some p /\ 0 <= p <= innerHeight 1200.
Proof.
  assert (H : 0 < maxTotal Scenario.seriesA) by reflexivity.
  apply (proj2 (proj2 (value_scale_inverted Scenario.seriesA 1200 H))
           (mkDataPoint "2024-01-01T00:00Z" 10 100)).
  - left. reflexivity.
  - split; vm_compute; discriminate.
Defined.

(** Truncating toward zero keeps a number between two integers between
    them. *)
Lemma toDate_between (lo hi : Z) (v : Q) :
  inject_Z lo <= v <= inject_Z hi -> (lo <= D3.toDate v <= hi)%Z.
Proof.
  intros [Hl Hh]. unfold D3.toDate.
  destruct (Qle_bool 0 v).
  - pose proof (Qfloor_resp_le _ _ Hl) as H1. pose proof (Qfloor_resp_le _ _ Hh) as H2.
    rewrite Qfloor_Z in H1, H2. lia.
  - pose proof (Qceiling_resp_le _ _ Hl) as H1.
    pose proof (Qceiling_resp_le _ _ Hh) as H2.
    rewrite Qceiling_Z in H1, H2. lia.
Qed.

(** A pointer within the plot's width inverts to a time within the
    extent. *)
Lemma xInvert_within (tz : TimeZone) (data : list DataPoint) (clientWidth lo hi : Z)
  (mouseX : Q) :
  D3.extent (map (dateOf tz) data) = Some (lo, hi) ->
  0 <= mouseX <= innerWidth clientWidth ->
  exists xDate, xInvert tz data clientWidth mouseX = Some xDate /\
                (lo <= xDate <= hi)%Z.
Proof.
  intros Hext HX.
  pose proof (extent_ordered _ _ _ Hext) as Hle.
  pose proof (innerWidth_floor clientWidth) as HW.
  unfold xInvert, xScale, D3.invert. cbn [D3.domain D3.range]. rewrite Hext.
  cbn [asDomain option_map]. unfold D3.bimap.
  assert (Hlt : D3.Qlt_bool (innerWidth clientWidth) 0 = false)
    by (apply ScaleFacts.Qlt_bool_false; lra).
  rewrite Hlt.
  destruct (ExtentFacts.normalize_unit 0 (innerWidth clientWidth) mouseX)
    as (u & -> & Hu & _); [lra|].
  cbn [option_map]. eexists. split; [reflexivity|].
  apply toDate_between.
  assert (inject_Z lo <= inject_Z hi) by (rewrite <- Zle_Qle; exact Hle).
  unfold D3.interpolateNumber. nra.
Qed.

(** On a series in time order, a pointer anywhere within the plot's width
    resolves to a sample and the handler places a tooltip, never throwing:
    the sample shown is the first one at or after the inverted time. *)
Theorem pointer_resolves_on_ordered_series
  (tz : TimeZone) (data : list DataPoint) (times : list Z) (clientWidth : Z)
  (mouseX mouseY : Q) :
  data <> [] ->
  map (dateOf tz) data = map Some times ->
  (forall i j, (i <= j < List.length times)%nat -> (nth i times 0 <= nth j times 0)%Z) ->
  0 <= mouseX <= innerWidth clientWidth ->
  exists xDate i d,
    xInvert tz data clientWidth mouseX = Some xDate /\
    bisect tz data (Some xDate) = Some i /\
    nth_error data i = Some d /\
    mousemove tz data clientWidth mouseX mouseY
    = Returned {| sample := d;
                  left := fst (tooltipPosition clientWidth mouseX mouseY);
                  top := snd (tooltipPosition clientWidth mouseX mouseY) |} /\
    (forall j, (j < i)%nat -> (nth j times 0 < xDate)%Z) /\
    (xDate <= nth i times 0)%Z.
Proof.
  intros Hne Hmap Hsorted HX.
  assert (Hlen : List.length times = List.length data).
  { rewrite <- (length_map Some times), <- Hmap. apply length_map. }
  destruct times as [|t0 times']; [destruct data; [contradiction|discriminate]|].
  set (times := t0 :: times') in *.
  assert (Hin0 : In (Some t0) (map (dateOf tz) data)).
  { rewrite Hmap. left. reflexivity. }
  destruct (ExtentFacts.extent_spec _ t0 Hin0) as (lo & hi & Hext & Hall & _ & Hhi).
  destruct (xInvert_within tz data clientWidth lo hi mouseX Hext HX)
    as (xDate & HxD & Hrange).
  destruct (BisectFacts.left_spec (dateOf tz) data times xDate Hmap Hsorted)
    as (i & Hi & Hile & Hbefore & Hafter).
  rewrite Hmap in Hhi. apply in_map_iff in Hhi as (thi & Ehi & Hthi).
  injection Ehi as ->.
  destruct (In_nth _ _ 0%Z Hthi) as (jm & Hjm & Hnth).
  assert (Hilt : (i < List.length data)%nat).
  { destruct (Nat.lt_ge_cases jm i) as [Hlt|Hge]; [|lia].
    specialize (Hbefore jm Hlt). lia. }
  destruct (nth_error data i) as [d|] eqn:Ed;
    [|apply nth_error_None in Ed; lia].
  exists xDate, i, d.
  split; [exact HxD|]. split; [exact Hi|]. split; [exact Ed|].
  split; [|split; [exact Hbefore | apply Hafter; lia]].
  unfold mousemove, sampleAt. rewrite HxD. unfold bisect. rewrite Hi.
  cbn [option_map]. rewrite Ed.
  destruct (tooltipPosition clientWidth mouseX mouseY). reflexivity.
Qed.

Lemma pointer_resolves_on_ordered_series_witness :
  exists xDate i d,
    xInvert Zone.utc Scenario.seriesA 1200 550 = Some xDate /\
    bisect Zone.utc Scenario.seriesA (Some xDate) = Some i /\
    nth_error Scenario.seriesA i = Some d.
Proof.
  destruct (pointer_resolves_on_ordered_series Zone.utc Scenario.seriesA
              [1704067200000; 1704153600000]%Z 1200 550 10)
    as (xDate & i & d & H1 & H2 & H3 & _).
  - discriminate.
  - reflexivity.
  - intros i j Hij. cbn [List.length] in Hij.
    assert (Hc : ((i = 0 /\ j = 0) \/ (i = 0 /\ j = 1) \/ (i = 1 /\ j = 1))%nat) by lia.
    destruct Hc as [[-> ->]|[[-> ->]|[-> ->]]]; cbn; lia.
  - split; vm_compute; discriminate.
  - exists xDate, i, d. auto.
Defined.

(** An error, once set, is never cleared: after a failed fetch every later
    fetch that succeeds still renders the error view, not its chart. *)
Theorem error_outlives_successful_fetch
  (s : State) (failed : FetchResult) (message : string)
  (status : Z) (rows : option (list DataPoint)) :
  fetchData failed = inl message -> message <> EmptyString ->
  ok status = true ->
  let s1 := settle true s failed in
  let s2 := settle true s1 (Response status (JSON rows)) in
  data s2 = rows /\ render s2 = ErrorView message.
Proof.
  intros Hfail Hne Hok. cbv zeta. unfold settle. rewrite Hfail.
  unfold fetchData. rewrite Hok. cbn [negb data error loading].
  split; [reflexivity|]. unfold render. cbn [loading error truthy].
  destruct message; [contradiction|reflexivity].
Qed.

Lemma error_outlives_successful_fetch_witness :
  render (settle true (settle true initial (Response 500 (JSON None)))
            (Response 200 (JSON (Some Scenario.seriesA))))
  = ErrorView "HTTP error! status: 500".
Proof.
  apply (error_outlives_successful_fetch initial (Response 500 (JSON None))
           "HTTP error! status: 500" 200 (Some Scenario.seriesA)).
  - reflexivity.
  - discriminate.
  - reflexivity.
Defined.

Lemma substring_length (n : nat) : forall s, (String.length (substring 0 n s) <= n)%nat.
Proof.
  induction n as [|n IH]; intros s; destruct s; cbn; try lia.
  specialize (IH s). lia.
Qed.

Lemma append_length (a b : string) :
  String.length (a ++ b) = (String.length a + String.length b)%nat.
Proof. induction a; cbn; congruence. Qed.

(** A body that is not JSON, under a success status, is shown as an error
    that quotes at most the first 100 characters of the body, whatever was
    displayed before; a body of 100 characters or fewer is quoted whole. *)
Theorem invalid_json_is_an_error (s : State) (status : Z) (rawText : string) :
  ok status = true ->
  let s' := settle true s (Response status (NotJSON rawText)) in
  exists message,
    render s' = ErrorView message /\
    (String.length message <= 126)%nat /\
    ((String.length rawText <= 100)%nat ->
     message = ("Invalid JSON response: " ++ rawText ++ "...")%string).
Proof.
  intros Hok. cbv zeta. unfold settle, fetchData. rewrite Hok. cbn [negb].
  exists ("Invalid JSON response: " ++ substring 0 100 rawText ++ "...")%string. conj.
  - unfold render. cbn [loading error]. reflexivity.
  - rewrite !append_length. pose proof (substring_length 100 rawText). cbn. lia.
  - intros Hlen. f_equal. f_equal.
    clear Hok. revert Hlen. generalize 100%nat.
    induction rawText as [|c r IH]; intros n Hn.
    + destruct n; reflexivity.
    + destruct n; cbn in Hn; [lia|]. cbn. f_equal. apply IH. lia.
Qed.

Lemma invalid_json_is_an_error_witness :
  exists message,
    render (settle true Scenario.showingA (Response 200 (NotJSON "<html>")))
    = ErrorView message /\
    (String.length message <= 126)%nat.
Proof.
  destruct (invalid_json_is_an_error Scenario.showingA 200 "<html>" eq_refl)
    as (m & H1 & H2 & _).
  exists m. split; assumption.
Defined.

(** A result that arrives after the component was unmounted changes
    nothing; one that arrives while mounted always ends the loading state. *)
Theorem settle_respects_mount (s : State) (r : FetchResult) :
  settle false s r = s /\ loading (settle true s r) = false /\
  render (settle true s r) <> LoadingView.
Proof.
  conj; [reflexivity| |].
  - unfold settle. destruct (fetchData r); reflexivity.
  - unfold settle, render. destruct (fetchData r); cbn [loading];
      repeat match goal with |- context [if ?b then _ else _] => destruct b end;
      try discriminate; destruct (data s); try discriminate;
      destruct o; discriminate.
Qed.

End PlotProperties.

(* ================================================================== *)
(** ** CalendarHeatmap: columns, labels, keys and colours *)
(* ================================================================== *)

Module HeatmapProperties.
Import ES Spec ESFacts GridFacts CalendarHeatmap HeatmapLayout.
Local Open Scope Z_scope.

Ltac conj := repeat match goal with |- _ /\ _ => split end.



Lemma wall_back_fixed (offset tod n : Z) :
  LocalTime (Zone.fixed offset) (wall (Zone.fixed offset) tod n) = MakeDate n tod.
Proof. unfold LocalTime, wall, UTC, Zone.fixed. lia. Qed.

(** Where clocks never shift, the label of a month stands over the
    column of the month's first day when [start] is a local midnight; when
    [start] carries a time of day, it stands one column further left. *)
Theorem month_label_column (offset : Z) (start d : Date.t) (fuel : nat) :
  (6 <= fuel)%nat ->
  let tz := Zone.fixed offset in
  let tod := TimeWithinDay (LocalTime tz start) in
  let firstDay := Date.make tz (Date.getFullYear tz d) (Date.getMonth tz d) 1 in
  let firstDayCell := wall tz tod (Day (LocalTime tz firstDay)) in
  exists fs,
    firstSunday fuel tz start = Some fs /\
    monthLabelX fuel tz fs d
    = Some ((getWeekNumber fs firstDayCell - (if tod =? 0 then 0 else 1))
            * fullCellSize).
Proof.
  intros Hfuel. cbv zeta.
  set (tz := Zone.fixed offset).
  pose proof (fixed_regular offset start) as Hreg. fold tz in Hreg.
  destruct (HeatmapFacts.firstSunday_regular tz start fuel Hreg Hfuel) as (Hfs & _ & _).
  eexists. split; [exact Hfs|].
  pose proof (TimeWithinDay_range (LocalTime tz start)) as Htod.
  unfold WeekDay in *.
  set (tod := TimeWithinDay (LocalTime tz start)) in *.
  set (n0 := Day (LocalTime tz start)) in *.
  clearbody tod n0.
  unfold monthLabelX.
  set (Y := Date.getFullYear tz d). set (M := Date.getMonth tz d). clearbody Y M.
  assert (Hlt : LocalTime tz (Date.make tz Y M 1) = MakeDate (MakeDay Y M 1) 0)
    by apply HeatmapFacts.LocalTime_fixed_make.
  rewrite Hlt.
  assert (Hmake : Date.make tz Y M 1 = wall tz 0 (MakeDay Y M 1)) by reflexivity.
  rewrite Hmake. rewrite Day_MakeDate by (unfold msPerDay; lia).
  set (n1 := MakeDay Y M 1). clearbody n1.
  assert (Hw1 : 0 <= (n1 + 4) mod 7 < 7) by (apply Z.mod_pos_bound; lia).
  assert (Hw0 : 0 <= (n0 + 4) mod 7 < 7) by (apply Z.mod_pos_bound; lia).
  rewrite (firstSundayLoop_wall tz 0) with (j := Z.to_nat ((n1 + 4) mod 7));
    [ | unfold msPerDay; lia | intros; apply wall_back_fixed | lia | lia ].
  rewrite Z2Nat.id by lia.
  f_equal. f_equal.
  unfold tz. rewrite HeatmapFacts.getWeekNumber_fixed.
  unfold Date.getTime. rewrite !HeatmapFacts.wall_fixed.
  unfold msPerDay in *.
  destruct (Z.eqb_spec tod 0) as [->|Hne]; zdiv.
Qed.

Lemma month_label_column_witness :
  let tz := Zone.utc in
  let start := Date.make tz 2024 0 1 in
  monthLabelX 6 tz (Date.make tz 2023 11 31) (Date.make tz 2024 1 1)
  = Some (getWeekNumber (Date.make tz 2023 11 31) (Date.make tz 2024 1 1) * fullCellSize).
Proof.
  cbv zeta.
  destruct (month_label_column 0 (Date.make Zone.utc 2024 0 1)
              (Date.make Zone.utc 2024 1 1) 6 (le_n 6)) as (fs & Hfs & Hx).
  assert (E : fs = Date.make Zone.utc 2023 11 31).
  { assert (H : firstSunday 6 Zone.utc (Date.make Zone.utc 2024 0 1)
                = Some (Date.make Zone.utc 2023 11 31)) by reflexivity.
    change (Zone.fixed 0) with Zone.utc in Hfs. rewrite H in Hfs.
    injection Hfs as <-. reflexivity. }
  rewrite E in Hx. exact Hx.
Defined.

(** The date key reads only the UTC day of an instant. *)
Lemma isoDate_Day (a b : Z) : Day a = Day b -> Str.isoDate a = Str.isoDate b.
Proof.
  intros H.
  unfold Str.isoDate, DateFromTime, MonthFromTime, InLeapYear, DayWithinYear, YearFromTime.
  rewrite H. reflexivity.
Qed.

(** Rows are laid out by local day, samples looked up by UTC day.  Where
    clocks run ahead of UTC by a fixed offset, the cell of a local midnight
    (the default start and every day after it) sits in the row of its own
    weekday and takes the fill and the tooltip value of the day before;
    at or behind UTC, by less than a day, it takes those of its own day. *)
Theorem local_midnight_cell_key (offset n : Z) :
  let tz := Zone.fixed offset in
  let cell := wall tz 0 n in
  Date.getDay tz cell = WeekDay (MakeDate n 0) /\
  (0 < offset <= msPerDay ->
   Str.isoDate cell = Str.isoDate (MakeDate (n - 1) 0) /\
   forall interpolateBlues data,
     fill interpolateBlues data cell = fill interpolateBlues data (MakeDate (n - 1) 0) /\
     tooltipValue data cell = tooltipValue data (MakeDate (n - 1) 0)) /\
  (- msPerDay < offset <= 0 ->
   Str.isoDate cell = Str.isoDate (MakeDate n 0) /\
   forall interpolateBlues data,
     fill interpolateBlues data cell = fill interpolateBlues data (MakeDate n 0) /\
     tooltipValue data cell = tooltipValue data (MakeDate n 0)).
Proof.
  cbv zeta. conj.
  - unfold Date.getDay. rewrite wall_back_fixed. reflexivity.
  - intros Hoff.
    assert (E : Str.isoDate (wall (Zone.fixed offset) 0 n)
                = Str.isoDate (MakeDate (n - 1) 0)).
    { apply isoDate_Day. rewrite HeatmapFacts.wall_fixed.
      unfold Day, MakeDate, msPerDay in *. zdiv. }
    split; [exact E|]. intros interpolateBlues data.
    unfold fill, tooltipValue. rewrite E. split; reflexivity.
  - intros Hoff.
    assert (E : Str.isoDate (wall (Zone.fixed offset) 0 n)
                = Str.isoDate (MakeDate n 0)).
    { apply isoDate_Day. rewrite HeatmapFacts.wall_fixed.
      unfold Day, MakeDate, msPerDay in *. zdiv. }
    split; [exact E|]. intros interpolateBlues data.
    unfold fill, tooltipValue. rewrite E. split; reflexivity.
Qed.

Lemma local_midnight_cell_key_witness :
  Str.isoDate (Date.make (Zone.fixed 3600000) 2024 0 2) = "2024-01-01"%string.
Proof.
  assert (H : 0 < 3600000 <= msPerDay) by (unfold msPerDay; lia).
  change (Date.make (Zone.fixed 3600000) 2024 0 2)
    with (wall (Zone.fixed 3600000) 0 19724).
  rewrite (proj1 (proj1 (proj2 (local_midnight_cell_key 3600000 19724)) H)).
  vm_compute. reflexivity.
Defined.

Lemma get_none_iff (data : list DayData) (key : string) :
  get (dataMap data) key = None <->
  forall d, In d data -> Str.beforeT (date d) <> key.
Proof.
  induction data as [|x l IH]; cbn [dataMap map get].
  - split; [intros _ d []|reflexivity].
  - fold (dataMap l). destruct (get (dataMap l) key) as [v|] eqn:E.
    + split; [discriminate|]. intros H.
      assert (Hn : Some v = None)
        by (apply IH; intros d Hd; apply H; right; exact Hd).
      discriminate.
    + destruct (String.eqb_spec (Str.beforeT (date x)) key) as [Ek|Ek].
      * split; [discriminate|]. intros H. exfalso.
        apply (H x); [left; reflexivity|exact Ek].
      * split; [|reflexivity]. intros _ d [<-|Hd]; [exact Ek|].
        apply (proj1 IH eq_refl d Hd).
Qed.

Lemma has_false_iff (data : list DayData) (key : string) :
  has (dataMap data) key = false <->
  forall d, In d data -> Str.beforeT (date d) <> key.
Proof.
  unfold has. rewrite <- get_none_iff.
  destruct (get (dataMap data) key); split; intros H; try discriminate; reflexivity.
Qed.

(** The lookup table built from the samples: of several samples of one
    day the last in the response is the one found, and a day is found
    exactly when some sample names it. *)
Theorem data_map_lookup (data : list DayData) (key : string) :
  (forall before d after,
      data = before ++ d :: after ->
      Str.beforeT (date d) = key ->
      (forall d', In d' after -> Str.beforeT (date d') <> key) ->
      get (dataMap data) key = Some (value d)) /\
  (has (dataMap data) key = false <->
   forall d, In d data -> Str.beforeT (date d) <> key).
Proof.
  split; [|apply has_false_iff].
  intros before d after -> Hkey Hafter.
  induction before as [|b before IH]; cbn [app dataMap map get].
  - fold (dataMap after). rewrite (proj2 (get_none_iff after key) Hafter).
    rewrite Hkey, String.eqb_refl. reflexivity.
  - fold (dataMap (before ++ d :: after)). rewrite IH. reflexivity.
Qed.

(** A day none of the samples names is filled [#eee] and reads "No data". *)
Theorem missing_day_is_neutral
  (interpolateBlues : Q -> string) (data : list DayData) (d : Date.t) :
  (forall s, In s data -> Str.beforeT (date s) <> Str.isoDate d) ->
  fill interpolateBlues data d = Some "#eee"%string /\
  valueText (tooltipValue data d) = "No data"%string.
Proof.
  intros H.
  pose proof (proj2 (has_false_iff data (Str.isoDate d)) H) as Hhas.
  unfold fill, tooltipValue. rewrite Hhas. unfold has in Hhas.
  destruct (get (dataMap data) (Str.isoDate d)); [discriminate|].
  split; reflexivity.
Qed.

Lemma missing_day_is_neutral_witness :
  fill (fun _ => "rgb(0, 0, 0)"%string) Scenario.zeroDay (Date.make Zone.utc 2024 0 2)
  = Some "#eee"%string.
Proof.
  apply (missing_day_is_neutral (fun _ => "rgb(0, 0, 0)"%string) Scenario.zeroDay
           (Date.make Zone.utc 2024 0 2)).
  intros s [<-|[]]. vm_compute. discriminate.
Defined.

Lemma data_map_lookup_witness :
  get (dataMap [mkDayData "2024-01-01T00:00:00Z" 3; mkDayData "2024-01-01T12:00:00Z" 7])
      "2024-01-01" = Some 7.
Proof.
  apply (proj1 (data_map_lookup _ "2024-01-01")
           [mkDayData "2024-01-01T00:00:00Z" 3] (mkDayData "2024-01-01T12:00:00Z" 7) []).
  - reflexivity.
  - reflexivity.
  - intros d' [].
Defined.

Local Open Scope Q_scope.

Lemma minValue_maxValue_bounds (data : list DayData) (d : DayData) :
  In d data ->
  minValue data <= inject_Z (value d) <= maxValue data.
Proof.
  intros Hd. unfold minValue, maxValue.
  assert (Hin : In (inject_Z (value d)) (map (fun d => inject_Z (value d)) data)).
  { apply in_map_iff. exists d. split; [reflexivity|exact Hd]. }
  destruct (ExtentFacts.min_spec _ _ Hin) as (lo & -> & Hlo & _).
  destruct (ExtentFacts.max_spec _ _ Hin) as (hi & -> & Hhi & _).
  rewrite !ExtentFacts.orZero_eq. split; [apply Hlo|apply Hhi]; exact Hin.
Qed.

(** The parameter [sequential] gives between the ends of its domain. *)
Lemma sequential_unit (x0 x1 v : Q) :
  x0 <= v <= x1 ->
  exists t, D3.sequential x0 x1 v = Some t /\ 0 <= t <= 1 /\
            (x0 < x1 -> t * (x1 - x0) == v - x0).
Proof.
  intros Hv. unfold D3.sequential, D3.jsdiv.
  destruct (Qeq_bool x0 x1) eqn:E.
  - apply Qeq_bool_iff in E. eexists. split; [reflexivity|]. split; [lra|]. intros; lra.
  - apply ScaleFacts.Qeq_bool_false in E.
    assert (Hpos : 0 < x1 - x0) by lra.
    assert (Hne : Qeq_bool (x1 - x0) 0 = false)
      by (apply ScaleFacts.Qeq_bool_false; lra).
    rewrite Hne. cbn [option_map]. eexists. split; [reflexivity|].
    assert (Hk : (1 / (x1 - x0)) * (x1 - x0) == 1) by (field; lra).
    assert (Hk0 : 0 < 1 / (x1 - x0)).
    { unfold Qdiv. rewrite Qmult_1_l. apply Qinv_lt_0_compat. exact Hpos. }
    set (k := 1 / (x1 - x0)) in *. clearbody k.
    split; [split|]; [nra|nra|]. intros _. nra.
Qed.

(** Every sample is coloured from within the ramp: its parameter lies
    between 0 and 1, so no fill is extrapolated past the ramp's ends; when
    the least and greatest values differ the parameter is the sample's
    share of the way from the least to the greatest, so the least value
    takes the ramp's start and the greatest its end. *)
Theorem sample_colour_within_ramp
  (interpolateBlues : Q -> string) (data : list DayData) (d : DayData) :
  In d data ->
  exists t,
    colorScale interpolateBlues data (value d) = Some (interpolateBlues t) /\
    0 <= t <= 1 /\
    (minValue data < maxValue data ->
     t * (maxValue data - minValue data) == inject_Z (value d) - minValue data).
Proof.
  intros Hd. unfold colorScale.
  destruct (sequential_unit (minValue data) (maxValue data) (inject_Z (value d)))
    as (t & -> & Ht & Hshare).
  - apply minValue_maxValue_bounds. exact Hd.
  - exists t. split; [reflexivity|]. split; [exact Ht|exact Hshare].
Qed.

Lemma sample_colour_within_ramp_witness :
  let ramp := fun t : Q => if Qle_bool t (1 # 4) then "pale"%string
                           else if Qle_bool t (3 # 4) then "mid"%string
                           else "deep"%string in
  let data := [mkDayData "2024-01-01T00:00:00.000Z" 2;
               mkDayData "2024-01-02T00:00:00.000Z" 12;
               mkDayData "2024-01-03T00:00:00.000Z" 7] in
  exists t,
    colorScale ramp data 7 = Some (ramp t) /\
    0 <= t <= 1 /\ t * (12 - 2) == 7 - 2.
Proof.
  cbv zeta.
  destruct (sample_colour_within_ramp
              (fun t : Q => if Qle_bool t (1 # 4) then "pale"%string
                            else if Qle_bool t (3 # 4) then "mid"%string
                            else "deep"%string)
              [mkDayData "2024-01-01T00:00:00.000Z" 2;
               mkDayData "2024-01-02T00:00:00.000Z" 12;
               mkDayData "2024-01-03T00:00:00.000Z" 7]
              (mkDayData "2024-01-03T00:00:00.000Z" 7)) as (t & H1 & H2 & H3).
  - right. right. left. reflexivity.
  - exists t. split; [exact H1|]. split; [exact H2|].
    apply H3. vm_compute. reflexivity.
Defined.

(** The legend's gradient runs evenly over the ramp: stop [i] of 0..10 has
    the parameter [i / 10] when the least and greatest values differ, and
    every stop the middle of the ramp when they are equal. *)
Theorem legend_stops_even (data : list DayData) (i : Z) :
  (minValue data < maxValue data ->
   exists t, legendStop data i = Some t /\ t == inject_Z i / 10) /\
  (minValue data == maxValue data -> legendStop data i = Some (1 # 2)).
Proof.
  unfold legendStop, D3.sequential, D3.jsdiv, numStops. split.
  - intros Hlt.
    assert (E : Qeq_bool (minValue data) (maxValue data) = false)
      by (apply ScaleFacts.Qeq_bool_false; lra).
    assert (Hne : Qeq_bool (maxValue data - minValue data) 0 = false)
      by (apply ScaleFacts.Qeq_bool_false; lra).
    rewrite E, Hne. cbn [option_map]. eexists. split; [reflexivity|].
    change (inject_Z 10) with (10 : Q). field. lra.
  - intros Heq. apply Qeq_bool_iff in Heq. rewrite Heq. reflexivity.
Qed.

Lemma legend_stops_even_witness :
  exists t,
    legendStop [mkDayData "2024-01-01" 2; mkDayData "2024-01-02" 12] 5 = Some t /\
    t == 5 / 10.
Proof.
  apply (proj1 (legend_stops_even
                  [mkDayData "2024-01-01" 2; mkDayData "2024-01-02" 12] 5)).
  reflexivity.
Defined.

(** The response rows become the heatmap's samples one for one, in order
    and under their own time stamps; each value is the integer nearest the
    row's allocation, a half going up, so an integer allocation is kept. *)
Theorem processed_data_rounds (rawData : list RawItem) :
  map date (processedData rawData) = map time rawData /\
  List.length (processedData rawData) = List.length rawData /\
  (forall i item, nth_error rawData i = Some item ->
     exists s, nth_error (processedData rawData) i = Some s /\
               date s = time item /\
               allocated item - (1 # 2) < inject_Z (value s) <= allocated item + (1 # 2)) /\
  (forall z, Math_round (inject_Z z) = z).
Proof.
  unfold processedData. conj.
  - rewrite map_map. reflexivity.
  - apply length_map.
  - intros i item Hi. eexists. split; [rewrite nth_error_map, Hi; reflexivity|].
    cbn [date value]. split; [reflexivity|]. unfold Math_round.
    pose proof (Qfloor_le (allocated item + (1 # 2))) as H1.
    pose proof (Qlt_floor (allocated item + (1 # 2))) as H2.
    rewrite inject_Z_plus in H2. change (inject_Z 1) with 1 in H2.
    set (f := inject_Z (Qfloor (allocated item + (1 # 2)))) in *. clearbody f.
    split; lra.
  - intros z. unfold Math_round.
    pose proof (Qfloor_le (inject_Z z + (1 # 2))) as H1.
    pose proof (Qlt_floor (inject_Z z + (1 # 2))) as H2.
    rewrite inject_Z_plus in H2. change (inject_Z 1) with 1 in H2.
    set (r := Qfloor (inject_Z z + (1 # 2))) in *. clearbody r.
    assert (Ha : inject_Z r < inject_Z (z + 1)).
    { rewrite inject_Z_plus. change (inject_Z 1) with 1.
      set (a := inject_Z r) in *. set (b := inject_Z z) in *. clearbody a b. lra. }
    assert (Hb : inject_Z (z + -1) < inject_Z r).
    { rewrite inject_Z_plus. change (inject_Z (-1)) with (-1 # 1).
      set (a := inject_Z r) in *. set (b := inject_Z z) in *. clearbody a b. lra. }
    rewrite <- Zlt_Qlt in Ha, Hb. lia.
Qed.

Lemma processed_data_rounds_witness :
  map date (processedData [mkRawItem "2024-01-01T00:00:00Z" (5 # 2)])
  = ["2024-01-01T00:00:00Z"%string] /\
  map value (processedData [mkRawItem "2024-01-01T00:00:00Z" (5 # 2)]) = [3%Z].
Proof.
  split.
  - exact (proj1 (processed_data_rounds [mkRawItem "2024-01-01T00:00:00Z" (5 # 2)])).
  - reflexivity.
Defined.

(** The heatmap's tooltip can leave the container only through the left
    edge: for a pointer inside the drawable area its right, top and bottom
    edges are always inside, and its left edge is outside exactly when the
    pointer is within 160 of the left edge and within 170 of the right
    one, which takes a container narrower than 330. *)
Theorem heatmap_tooltip_edges (containerWidth : Z) (mouseX mouseY : Q) :
  0 < mouseX < inject_Z containerWidth -> 0 < mouseY < CalendarHeatmap.height ->
  let p := CalendarHeatmap.tooltipPosition containerWidth mouseX mouseY in
  fst p + CalendarHeatmap.tooltipWidth <= inject_Z containerWidth /\
  0 <= snd p /\
  snd p + CalendarHeatmap.tooltipHeight <= CalendarHeatmap.height /\
  (fst p < 0 <-> inject_Z containerWidth - 170 < mouseX < 160).
Proof.
  intros HX HY. cbv zeta.
  assert (Hh : CalendarHeatmap.height == 230) by reflexivity.
  unfold CalendarHeatmap.tooltipPosition, CalendarHeatmap.tooltipWidth,
    CalendarHeatmap.tooltipHeight, CalendarHeatmap.padding in *.
  set (H := CalendarHeatmap.height) in *. clearbody H.
  set (W := inject_Z containerWidth) in *. clearbody W.
  destruct (D3.Qlt_bool W (mouseX + 10 + 150 + 10)) eqn:Eh;
    destruct (D3.Qlt_bool H (mouseY + 60 + 10)) eqn:Ev;
    try apply ScaleFacts.Qlt_bool_true in Ev; try apply ScaleFacts.Qlt_bool_false in Ev;
    try apply ScaleFacts.Qlt_bool_true in Eh; try apply ScaleFacts.Qlt_bool_false in Eh;
    cbn [fst snd]; conj; try lra; split; intros; try split; lra.
Qed.

Lemma heatmap_tooltip_edges_witness :
  fst (CalendarHeatmap.tooltipPosition 200 50 50) < 0.
Proof.
  assert (HX : 0 < 50 < inject_Z 200) by (split; reflexivity).
  assert (HY : 0 < 50 < CalendarHeatmap.height) by (split; reflexivity).
  apply (proj2 (proj2 (proj2 (heatmap_tooltip_edges 200 50 50 HX HY)))).
  split; reflexivity.
Defined.

Local Open Scope Z_scope.

Lemma zseq_nth (k : nat) :
  forall n i, (i < k)%nat -> nth_error (zseq n k) i = Some (n + Z.of_nat i).
Proof.
  induction k as [|k IH]; intros n i Hi; [lia|].
  destruct i as [|i]; cbn [zseq nth_error].
  - f_equal. lia.
  - rewrite IH by lia. f_equal. lia.
Qed.

(** The year of cells, day by day: from a start whose wall-clock time is
    regular the loop lists one date per calendar day from [startDate] to
    [endDate].  The first date is [startDate] and the last is [endDate],
    which falls on the day before the same calendar date one year on; the
    date at index [i] falls on the [i]-th local day after [startDate]'s, at
    [startDate]'s time of day, so no day is skipped and none is listed
    twice; there are 365 or 366 dates and all of them are visible. *)
Theorem year_lists_each_day_once (tz : TimeZone) (start : Z) (fuel : nat) :
  regular tz start -> (366 <= fuel)%nat ->
  let lt := LocalTime tz start in
  exists dates,
    allDatesInRange fuel tz start (endDate tz start) = Some dates /\
    visibleDates dates start (endDate tz start) = dates /\
    (List.length dates = 365%nat \/ List.length dates = 366%nat) /\
    nth_error dates 0 = Some start /\
    nth_error dates (List.length dates - 1) = Some (endDate tz start) /\
    Day (LocalTime tz (endDate tz start))
    = MakeDay (YearFromTime lt + 1) (MonthFromTime lt) (DateFromTime lt) - 1 /\
    (forall i d, nth_error dates i = Some d ->
       Day (LocalTime tz d) = Day lt + Z.of_nat i /\
       TimeWithinDay (LocalTime tz d) = TimeWithinDay lt) /\
    NoDup dates.
Proof.
  intros Hreg Hfuel. cbv zeta.
  pose proof (regular_start tz start Hreg) as Hstart.
  destruct Hreg as (_ & Hback & Hmono).
  pose proof (TimeWithinDay_range (LocalTime tz start)) as Htod.
  assert (Hlt : LocalTime tz start
                = MakeDate (Day (LocalTime tz start)) (TimeWithinDay (LocalTime tz start)))
    by (symmetry; apply MakeDate_Day).
  revert Hlt. generalize (LocalTime tz start) at 1 4 5 6. intros lt Hlt.
  set (tod := TimeWithinDay (LocalTime tz start)) in *.
  set (n := Day (LocalTime tz start)) in *.
  clearbody tod n. subst start lt.
  destruct (endDate_span tz tod Htod Hback n) as (m & Hend & Hspan).
  pose proof (endDate_wall tz tod Htod Hback n) as Hendw. cbv zeta in Hendw.
  rewrite Hendw. rewrite Hendw in Hend.
  set (k := Z.to_nat (m - n + 1)).
  assert (Hk : Z.of_nat k = m - n + 1) by (subst k; lia).
  assert (Hm : wall tz tod m
               = wall tz tod
                   (MakeDay (YearFromTime (MakeDate n tod) + 1)
                      (MonthFromTime (MakeDate n tod)) (DateFromTime (MakeDate n tod)) - 1))
    by (symmetry; exact Hend).
  revert Hm.
  generalize (MakeDay (YearFromTime (MakeDate n tod) + 1)
                (MonthFromTime (MakeDate n tod)) (DateFromTime (MakeDate n tod)) - 1).
  intros m' Hm.
  assert (Hmm : m' = m).
  { destruct (Z.lt_trichotomy m m') as [H|[H|H]]; [|auto|];
      apply Hmono in H; lia. }
  subst m'. clear Hm Hend Hendw.
  exists (map (wall tz tod) (zseq n k)). conj.
  - unfold allDatesInRange.
    apply (allDatesLoop_wall tz tod Htod Hback); [| |lia].
    + intros j Hj. apply (wall_le tz tod Hmono). lia.
    + apply Hmono. lia.
  - apply filter_all. intros d Hd.
    apply in_map_iff in Hd as (j & <- & Hj). apply zseq_In in Hj.
    pose proof (wall_le tz tod Hmono n j). pose proof (wall_le tz tod Hmono j m).
    apply andb_true_iff; split; apply Z.leb_le; lia.
  - rewrite length_map, zseq_length. lia.
  - rewrite nth_error_map, zseq_nth by lia. cbn [option_map].
    replace (n + Z.of_nat 0) with n by lia. reflexivity.
  - rewrite length_map, zseq_length, nth_error_map, zseq_nth by lia.
    cbn [option_map]. replace (n + Z.of_nat (k - 1)) with m by lia. reflexivity.
  - rewrite Hback. apply Day_MakeDate. exact Htod.
  - intros i d Hi. rewrite nth_error_map in Hi.
    destruct (nth_error (zseq n k) i) as [j|] eqn:Hj; [|discriminate].
    injection Hi as <-.
    assert (Hik : (i < k)%nat).
    { rewrite <- (zseq_length k n). apply nth_error_Some. rewrite Hj. discriminate. }
    rewrite zseq_nth in Hj by exact Hik. injection Hj as <-.
    rewrite Hback, Day_MakeDate, TimeWithinDay_MakeDate by exact Htod.
    split; reflexivity.
  - apply NoDup_map_on; [|apply zseq_NoDup].
    intros a b _ _ Hab.
    destruct (Z.lt_trichotomy a b) as [H|[H|H]]; [|auto|]; apply Hmono in H; lia.
Qed.

Lemma year_lists_each_day_once_witness :
  let tz := Zone.fixed (-18000000) in
  let start := Date.make tz 2024 0 1 in
  exists dates,
    allDatesInRange 366 tz start (endDate tz start) = Some dates /\
    nth_error dates 0 = Some start /\
    nth_error dates (List.length dates - 1) = Some (endDate tz start) /\
    NoDup dates.
Proof.
  cbv zeta.
  destruct (year_lists_each_day_once (Zone.fixed (-18000000))
              (Date.make (Zone.fixed (-18000000)) 2024 0 1) 366)
    as (dates & H1 & _ & _ & H4 & H5 & _ & _ & H8).
  - apply fixed_regular.
  - lia.
  - exists dates. conj; assumption.
Defined.

(** The grid where clocks never shift: every range with [start <= end]
    draws [daysBetween start end + 1] day rects, no two at the same
    [(x, y)], the first in column 0 on the row of [start]'s own weekday;
    ranges over a leap day are no exception. *)
Theorem fixed_zone_rects_distinct (offset start e : Z) (fuel : nat) :
  start <= e -> (6 <= fuel)%nat -> daysBetween start e < Z.of_nat fuel ->
  let tz := Zone.fixed offset in
  exists dates fs,
    allDatesInRange fuel tz start e = Some dates /\
    firstSunday fuel tz start = Some fs /\
    let rects := map (rectXY tz fs) (visibleDates dates start e) in
    Z.of_nat (List.length rects) = daysBetween start e + 1 /\
    NoDup rects /\
    nth_error rects 0 = Some (0, WeekDay (LocalTime tz start) * fullCellSize).
Proof.
  intros Hle Hfuel6 Hfuel. cbv zeta.
  destruct (HeatmapFacts.grid_layout_fixed_zone offset start e fuel Hle Hfuel6 Hfuel)
    as (cells & Hg & Hlen & Hnd & Hfirst).
  unfold gridCells in Hg.
  destruct (allDatesInRange fuel (Zone.fixed offset) start e) as [dates|]; [|discriminate].
  destruct (firstSunday fuel (Zone.fixed offset) start) as [fs|]; [|discriminate].
  injection Hg as <-.
  exists dates, fs. split; [reflexivity|]. split; [reflexivity|].
  assert (Hrects : map (rectXY (Zone.fixed offset) fs) (visibleDates dates start e)
                   = map (fun c => (fst c * fullCellSize, snd c * fullCellSize))
                       (map (cellOf (Zone.fixed offset) fs) (visibleDates dates start e)))
    by (rewrite map_map; apply map_ext; intros; reflexivity).
  rewrite Hrects. clear Hrects.
  set (cells := map (cellOf (Zone.fixed offset) fs) (visibleDates dates start e)) in *.
  clearbody cells. conj.
  - rewrite length_map. exact Hlen.
  - apply NoDup_map_on; [|exact Hnd].
    intros [a1 a2] [b1 b2] _ _ H. cbn [fst snd] in H. injection H as H1 H2.
    unfold fullCellSize, cellSize, cellMargin in H1, H2. f_equal; lia.
  - rewrite nth_error_map, Hfirst. reflexivity.
Qed.

Lemma fixed_zone_rects_distinct_witness :
  exists dates fs,
    allDatesInRange 60 Zone.utc (Date.make Zone.utc 2024 1 1)
      (Date.make Zone.utc 2024 2 1) = Some dates /\
    firstSunday 60 Zone.utc (Date.make Zone.utc 2024 1 1) = Some fs /\
    NoDup (map (rectXY Zone.utc fs)
             (visibleDates dates (Date.make Zone.utc 2024 1 1)
                (Date.make Zone.utc 2024 2 1))).
Proof.
  destruct (fixed_zone_rects_distinct 0 (Date.make Zone.utc 2024 1 1)
              (Date.make Zone.utc 2024 2 1) 60) as (dates & fs & H1 & H2 & _ & H3 & _).
  - vm_compute. discriminate.
  - lia.
  - vm_compute. reflexivity.
  - exists dates, fs. conj; assumption.
Defined.

End HeatmapProperties.

(* ================================================================== *)
(** ** ISO timestamps: printing and reading back *)
(* ================================================================== *)

Module IsoFacts.
Import ES Spec ESFacts GridFacts Str Iso.
Local Open Scope string_scope.
Local Open Scope Z_scope.

Ltac conj := repeat match goal with |- _ /\ _ => split end.

Lemma digits_app (k : nat) :
  forall acc s v rest,
    digits k acc s = Some (v, "") -> digits k acc (s ++ rest) = Some (v, rest).
Proof.
  induction k as [|k IH]; intros acc s v rest; cbn [digits].
  - intros H. injection H as -> ->. reflexivity.
  - destruct s as [|c s]; [discriminate|]. cbn [append].
    destruct (digit c); [|discriminate]. apply IH.
Qed.

Lemma forallb_zseq (P : Z -> bool) (k : nat) :
  forall a, forallb P (zseq a k) = true ->
            forall n, a <= n < a + Z.of_nat k -> P n = true.
Proof.
  intros a H n Hn. rewrite forallb_forall in H. apply H. apply zseq_In. exact Hn.
Qed.

Lemma pad2_reads_back : forallb (padReadsBack 2) (zseq 0 100) = true.
Proof. vm_compute. reflexivity. Qed.

Lemma pad3_reads_back : forallb (padReadsBack 3) (zseq 0 1000) = true.
Proof. vm_compute. reflexivity. Qed.

Lemma pad4_reads_back : forallb (padReadsBack 4) (zseq 0 (Z.to_nat 10000)) = true.
Proof. vm_compute. reflexivity. Qed.

Lemma padReadsBack_spec (k : nat) (n : Z) :
  padReadsBack k n = true ->
  digits k 0 (pad k n) = Some (n, "") /\ hasNoT (pad k n) = true.
Proof.
  unfold padReadsBack.
  destruct (digits k 0 (pad k n)) as [[v [|c r]]|]; try discriminate.
  intros H. apply andb_true_iff in H as [Hv Hn]. apply Z.eqb_eq in Hv. subst v.
  split; [reflexivity|exact Hn].
Qed.

Lemma pad2_spec (n : Z) :
  0 <= n < 100 -> digits 2 0 (pad 2 n) = Some (n, "") /\ hasNoT (pad 2 n) = true.
Proof.
  intros H. apply padReadsBack_spec. apply (forallb_zseq _ 100 0 pad2_reads_back). lia.
Qed.

Lemma pad3_spec (n : Z) :
  0 <= n < 1000 -> digits 3 0 (pad 3 n) = Some (n, "") /\ hasNoT (pad 3 n) = true.
Proof.
  intros H. apply padReadsBack_spec. apply (forallb_zseq _ 1000 0 pad3_reads_back). lia.
Qed.

Lemma pad4_spec (n : Z) :
  0 <= n < 10000 -> digits 4 0 (pad 4 n) = Some (n, "") /\ hasNoT (pad 4 n) = true.
Proof.
  intros H. apply padReadsBack_spec.
  apply (forallb_zseq _ (Z.to_nat 10000) 0 pad4_reads_back).
  rewrite Z2Nat.id; lia.
Qed.

Lemma expect_head (c : ascii) (s : string) : expect c (String c s) = Some s.
Proof. cbn [expect]. rewrite Ascii.eqb_refl. reflexivity. Qed.

Lemma hasNoT_app (a b : string) : hasNoT (a ++ b) = hasNoT a && hasNoT b.
Proof.
  induction a as [|c a IH]; cbn [append hasNoT]; [reflexivity|].
  rewrite IH. apply andb_assoc.
Qed.

Lemma beforeT_app (a b : string) : hasNoT a = true -> beforeT (a ++ b) = a ++ beforeT b.
Proof.
  induction a as [|c a IH]; cbn [append hasNoT beforeT]; [reflexivity|].
  intros H. apply andb_true_iff in H as [Hc Ha].
  apply negb_true_iff in Hc. rewrite Hc, (IH Ha). reflexivity.
Qed.

Lemma append_nil (a : string) : a ++ "" = a.
Proof. induction a; cbn; congruence. Qed.

Lemma append_assoc (a b c : string) : (a ++ b) ++ c = a ++ (b ++ c).
Proof. induction a; cbn; congruence. Qed.

(** The date of a time value exists in its month. *)
Lemma DateFromTime_range (t : Z) :
  1 <= DateFromTime t <= DaysInMonth (MonthFromTime t) (InLeapYear t).
Proof.
  pose proof (YearFromTime_spec t) as HY.
  pose proof (DayFromYear_succ (YearFromTime t)) as Hs.
  destruct (DaysInYear_cases (YearFromTime t)) as [Hd Hl].
  unfold DateFromTime, MonthFromTime, DayWithinYear, InLeapYear.
  set (l := leapOf (YearFromTime t)) in *.
  assert (Hw : 0 <= Day t - DayFromYear (YearFromTime t) < 365 + l) by lia.
  set (w := Day t - DayFromYear (YearFromTime t)) in *.
  clearbody w l. clear HY Hs Hd.
  repeat match goal with
         | |- context [if ?a <? ?b then _ else _] => destruct (Z.ltb_spec a b)
         end; cbn [monthStart DaysInMonth]; lia.
Qed.

Section Printed.
Context (d : Z).
Hypothesis year_range : 0 <= YearFromTime d <= 9999.

Lemma isoDate_parts :
  isoDate d = pad 4 (YearFromTime d) ++ "-" ++ pad 2 (MonthFromTime d + 1) ++ "-" ++
              pad 2 (DateFromTime d).
Proof.
  unfold isoDate.
  destruct (Z.leb_spec 0 (YearFromTime d)); [|lia].
  destruct (Z.leb_spec (YearFromTime d) 9999); [|lia]. reflexivity.
Qed.

Lemma field_ranges :
  0 <= YearFromTime d < 10000 /\ 0 <= MonthFromTime d + 1 < 100 /\
  0 <= DateFromTime d < 100 /\
  1 <= MonthFromTime d + 1 <= 12 /\
  1 <= DateFromTime d <= DaysInMonth (MonthFromTime d) (leapOf (YearFromTime d)).
Proof.
  pose proof (MonthFromTime_range d) as HM.
  pose proof (DateFromTime_range d) as HD. unfold InLeapYear in HD.
  destruct (DaysInYear_cases (YearFromTime d)) as [_ Hl].
  assert (Hdm : DaysInMonth (MonthFromTime d) (leapOf (YearFromTime d)) <= 31).
  { assert (Hc : MonthFromTime d = 0 \/ MonthFromTime d = 1 \/ MonthFromTime d = 2 \/
                 MonthFromTime d = 3 \/ MonthFromTime d = 4 \/ MonthFromTime d = 5 \/
                 MonthFromTime d = 6 \/ MonthFromTime d = 7 \/ MonthFromTime d = 8 \/
                 MonthFromTime d = 9 \/ MonthFromTime d = 10 \/ MonthFromTime d = 11)
      by lia.
    repeat (destruct Hc as [-> | Hc]; [cbn [DaysInMonth]; lia|]).
    rewrite Hc. cbn [DaysInMonth]. lia. }
  conj; lia.
Qed.

Lemma hasNoT_isoDate : hasNoT (isoDate d) = true.
Proof.
  destruct field_ranges as (HY & HM & HD & _).
  rewrite isoDate_parts, !hasNoT_app.
  rewrite (proj2 (pad4_spec _ HY)), (proj2 (pad2_spec _ HM)), (proj2 (pad2_spec _ HD)).
  reflexivity.
Qed.

(** Reading a printed date: the midnight that opens its UTC day. *)
Lemma parse_date_prefix (tz : TimeZone) (rest : string) :
  parse tz (isoDate d ++ rest) = afterDate tz (Day d) rest.
Proof.
  destruct field_ranges as (HY & HM & HD & HM' & HD').
  rewrite isoDate_parts. unfold parse.
  rewrite !append_assoc.
  rewrite (digits_app 4 0 _ _ _ (proj1 (pad4_spec _ HY))).
  cbn [append]. rewrite expect_head.
  rewrite (digits_app 2 0 _ _ _ (proj1 (pad2_spec _ HM))).
  unfold inRange at 1.
  destruct (Z.leb_spec 1 (MonthFromTime d + 1)); [|lia].
  destruct (Z.leb_spec (MonthFromTime d + 1) 12); [|lia].
  cbn [andb append]. rewrite expect_head.
  rewrite (digits_app 2 0 _ _ _ (proj1 (pad2_spec _ HD))).
  replace (MonthFromTime d + 1 - 1) with (MonthFromTime d) by lia.
  unfold inRange.
  destruct (Z.leb_spec 1 (DateFromTime d)); [|lia].
  destruct (Z.leb_spec (DateFromTime d)
              (DaysInMonth (MonthFromTime d) (leapOf (YearFromTime d)))); [|lia].
  cbn [andb].
  pose proof (MakeDay_fields d 0) as Hf. rewrite !Z.add_0_r in Hf. rewrite Hf.
  reflexivity.
Qed.

Lemma parse_isoDate (tz : TimeZone) : parse tz (isoDate d) = Some (MakeDate (Day d) 0).
Proof.
  rewrite <- (append_nil (isoDate d)). rewrite parse_date_prefix. reflexivity.
Qed.

Lemma beforeT_toISOString : beforeT (toISOString d) = isoDate d.
Proof.
  unfold toISOString. rewrite (beforeT_app _ _ hasNoT_isoDate).
  cbn [append beforeT]. rewrite Ascii.eqb_refl. apply append_nil.
Qed.

(** Reading a printed instant gives the instant. *)
Lemma parse_toISOString (tz : TimeZone) : parse tz (toISOString d) = Some d.
Proof.
  unfold toISOString. rewrite parse_date_prefix.
  assert (Hh : 0 <= HourFromTime d < 100) by (unfold HourFromTime; zdiv).
  assert (Hm : 0 <= MinFromTime d < 100) by (unfold MinFromTime; zdiv).
  assert (Hs : 0 <= SecFromTime d < 100) by (unfold SecFromTime; zdiv).
  assert (Hms : 0 <= msFromTime d < 1000) by (unfold msFromTime, msPerSecond; zdiv).
  assert (Hh' : 0 <= HourFromTime d <= 23) by (unfold HourFromTime; zdiv).
  assert (Hm' : 0 <= MinFromTime d <= 59) by (unfold MinFromTime; zdiv).
  assert (Hs' : 0 <= SecFromTime d <= 59) by (unfold SecFromTime; zdiv).
  assert (Hsum : MakeDate (Day d)
                   (MakeTime (HourFromTime d) (MinFromTime d) (SecFromTime d) (msFromTime d))
                 = d).
  { unfold MakeDate, MakeTime, Day, HourFromTime, MinFromTime, SecFromTime, msFromTime,
      msPerDay, msPerHour, msPerMinute, msPerSecond. zdiv. }
  cbn [append afterDate]. rewrite Ascii.eqb_refl. unfold parseTime.
  rewrite (digits_app 2 0 _ _ _ (proj1 (pad2_spec _ Hh))).
  cbn [append]. rewrite expect_head.
  rewrite (digits_app 2 0 _ _ _ (proj1 (pad2_spec _ Hm))).
  unfold parseSeconds. cbn [append]. rewrite expect_head.
  rewrite (digits_app 2 0 _ _ _ (proj1 (pad2_spec _ Hs))).
  cbn [append]. rewrite expect_head.
  rewrite (digits_app 3 0 _ _ _ (proj1 (pad3_spec _ Hms))).
  unfold inRange.
  destruct (Z.leb_spec 0 (HourFromTime d)); [|lia].
  destruct (Z.leb_spec (HourFromTime d) 24); [|lia].
  destruct (Z.leb_spec 0 (MinFromTime d)); [|lia].
  destruct (Z.leb_spec (MinFromTime d) 59); [|lia].
  destruct (Z.leb_spec 0 (SecFromTime d)); [|lia].
  destruct (Z.leb_spec (SecFromTime d) 59); [|lia].
  destruct (Z.eqb_spec (HourFromTime d) 24); [lia|].
  cbn [andb negb orb]. rewrite Hsum.
  cbn [parseZone]. rewrite Ascii.eqb_refl. reflexivity.
Qed.
End Printed.

End IsoFacts.

(* ================================================================== *)
(** ** Time stamps across the interface, and the pointer past the data *)
(* ================================================================== *)

Module InterfaceProperties.
Import ES Spec ESFacts.
Local Open Scope Z_scope.

(** An instant printed by [toISOString], as the [start] and [end] of the
    fetch URL are, and read by [new Date], as the [time] of a sample is,
    is the same instant, in every time zone (years 0 to 9999). *)
Theorem iso_instant_round_trip (tz : TimeZone) (d : Z) :
  0 <= YearFromTime d <= 9999 ->
  Str.parse tz (Iso.toISOString d) = Some d /\
  Str.beforeT (Iso.toISOString d) = Str.isoDate d.
Proof.
  intros H. split.
  - apply IsoFacts.parse_toISOString. exact H.
  - apply IsoFacts.beforeT_toISOString. exact H.
Qed.

Lemma iso_instant_round_trip_witness :
  Str.parse Zone.usEastern (Iso.toISOString 1704110400123) = Some 1704110400123.
Proof.
  apply (proj1 (iso_instant_round_trip Zone.usEastern 1704110400123
                  ltac:(vm_compute; split; discriminate))).
Defined.

Lemma isoDate_same_day (t d : Z) :
  0 <= YearFromTime t <= 9999 -> 0 <= YearFromTime d <= 9999 ->
  (Str.isoDate t = Str.isoDate d <-> Day t = Day d).
Proof.
  intros Ht Hd. split; [|apply HeatmapProperties.isoDate_Day].
  intros E.
  pose proof (IsoFacts.parse_isoDate t Ht Zone.utc) as Pt.
  pose proof (IsoFacts.parse_isoDate d Hd Zone.utc) as Pd.
  rewrite E, Pd in Pt. injection Pt as Pt.
  unfold MakeDate, msPerDay in Pt. lia.
Qed.

(** Samples are matched to cells by UTC calendar day: among samples
    stamped with ISO instants, the cell of the instant [d] finds one
    exactly when one of them falls on the UTC day of [d]. *)
Theorem sample_found_on_its_utc_day
  (stamped : list (Z * Z)) (d : Date.t) :
  (forall t v, In (t, v) stamped -> 0 <= YearFromTime t <= 9999) ->
  0 <= YearFromTime d <= 9999 ->
  let data := map (fun s => CalendarHeatmap.mkDayData (Iso.toISOString (fst s)) (snd s))
                  stamped in
  CalendarHeatmap.has (CalendarHeatmap.dataMap data) (Str.isoDate d) = true <->
  exists t v, In (t, v) stamped /\ Day t = Day d.
Proof.
  intros Hyears Hd. cbv zeta.
  set (data := map (fun s => CalendarHeatmap.mkDayData (Iso.toISOString (fst s)) (snd s))
                   stamped).
  pose proof (HeatmapProperties.has_false_iff data (Str.isoDate d)) as Hhas.
  split.
  - intros H.
    destruct (List.existsb (fun s => Day (fst s) =? Day d) stamped) eqn:Ex.
    + apply existsb_exists in Ex as ([t v] & Hin & Heq). apply Z.eqb_eq in Heq.
      exists t, v. split; assumption.
    + exfalso.
      assert (Hf : CalendarHeatmap.has (CalendarHeatmap.dataMap data) (Str.isoDate d) = false).
      { apply Hhas. intros s Hs. unfold data in Hs.
        apply in_map_iff in Hs as ([t v] & <- & Hin). cbn [CalendarHeatmap.date fst].
        rewrite IsoFacts.beforeT_toISOString by (apply (Hyears t v Hin)).
        intros E. apply (isoDate_same_day t d (Hyears t v Hin) Hd) in E.
        assert (Hex : List.existsb (fun s => Day (fst s) =? Day d) stamped = true).
        { apply existsb_exists. exists (t, v). split; [exact Hin|].
          apply Z.eqb_eq. exact E. }
        congruence. }
      congruence.
  - intros (t & v & Hin & Heq).
    destruct (CalendarHeatmap.has (CalendarHeatmap.dataMap data) (Str.isoDate d)) eqn:E;
      [reflexivity|].
    exfalso. apply (proj1 Hhas eq_refl (CalendarHeatmap.mkDayData (Iso.toISOString t) v)).
    + unfold data. apply in_map_iff. exists (t, v). split; [reflexivity|exact Hin].
    + cbn [CalendarHeatmap.date].
      rewrite IsoFacts.beforeT_toISOString by (apply (Hyears t v Hin)).
      apply HeatmapProperties.isoDate_Day. exact Heq.
Qed.

Lemma sample_found_on_its_utc_day_witness :
  CalendarHeatmap.has
    (CalendarHeatmap.dataMap
       [CalendarHeatmap.mkDayData (Iso.toISOString 1704110400000) 5])
    (Str.isoDate 1704067200000) = true.
Proof.
  apply (proj2 (sample_found_on_its_utc_day [(1704110400000, 5)] 1704067200000
                  ltac:(intros t v [E|[]]; injection E as <- <-;
                        vm_compute; split; discriminate)
                  ltac:(vm_compute; split; discriminate))).
  exists 1704110400000, 5. split; [left; reflexivity|reflexivity].
Defined.

(** On a series in time order, an inverted time after every sample makes
    the pointer handler throw: the bisection answers the length of the
    series and the sample read there is missing. *)
Theorem pointer_past_last_sample_throws
  (tz : TimeZone) (data : list TimeSeriesPlot.DataPoint) (times : list Z)
  (clientWidth : Z) (mouseX mouseY : Q) (xDate : Z) :
  map (TimeSeriesPlot.dateOf tz) data = map Some times ->
  (forall i j, (i <= j < List.length times)%nat -> nth i times 0 <= nth j times 0) ->
  TimeSeriesPlot.xInvert tz data clientWidth mouseX = Some xDate ->
  (forall t, In t times -> t < xDate) ->
  TimeSeriesPlot.bisect tz data (Some xDate) = Some (List.length data) /\
  TimeSeriesPlot.mousemove tz data clientWidth mouseX mouseY = Threw "TypeError".
Proof.
  intros Hmap Hsorted Hx Hlate.
  assert (Hlen : List.length times = List.length data).
  { rewrite <- (length_map Some times), <- Hmap. apply length_map. }
  destruct (BisectFacts.left_spec (TimeSeriesPlot.dateOf tz) data times xDate Hmap Hsorted)
    as (i & Hi & Hile & _ & Hafter).
  assert (Ei : i = List.length data).
  { destruct (Nat.eq_dec i (List.length data)) as [E|E]; [exact E|].
    assert (Hlt : (i < List.length times)%nat) by lia.
    pose proof (Hlate (nth i times 0) (nth_In _ _ Hlt)).
    pose proof (Hafter i). lia. }
  subst i. split; [exact Hi|].
  unfold TimeSeriesPlot.mousemove, TimeSeriesPlot.sampleAt. rewrite Hx.
  unfold TimeSeriesPlot.bisect in Hi |- *. rewrite Hi. cbn [option_map].
  rewrite (proj2 (nth_error_None data (List.length data)) (le_n _)). reflexivity.
Qed.

Lemma pointer_past_last_sample_throws_witness :
  TimeSeriesPlot.mousemove Zone.utc Scenario.seriesA 1200 1101 10 = Threw "TypeError".
Proof.
  apply (proj2 (pointer_past_last_sample_throws Zone.utc Scenario.seriesA
                  [1704067200000; 1704153600000] 1200 1101 10 1704153678545
                  eq_refl
                  ltac:(intros i j Hij; cbn [List.length] in Hij;
                        assert (Hc : ((i = 0 /\ j = 0) \/ (i = 0 /\ j = 1) \/
                                      (i = 1 /\ j = 1))%nat) by lia;
                        destruct Hc as [[-> ->]|[[-> ->]|[-> ->]]]; cbn; lia)
                  ltac:(vm_compute; reflexivity)
                  ltac:(intros t [<-|[<-|[]]]; lia))).
Defined.

(** A start given as [new Date('2024-04-01')], as the application gives
    it, is the UTC midnight of that day in every zone.  The cell of a UTC
    midnight is keyed by its own day; behind UTC by a fixed offset of up to
    a day it is drawn in the row of the weekday before, and at or ahead of
    UTC by less than a day in the row of its own weekday. *)
Theorem utc_midnight_cell_row :
  (forall tz, Str.parse tz "2024-04-01" = Some (MakeDate 19814 0)) /\
  (forall offset n,
      - msPerDay <= offset < 0 ->
      Date.getDay (Zone.fixed offset) (MakeDate n 0)
      = (WeekDay (MakeDate n 0) + 6) mod 7) /\
  (forall offset n,
      0 <= offset < msPerDay ->
      Date.getDay (Zone.fixed offset) (MakeDate n 0) = WeekDay (MakeDate n 0)).
Proof.
  split; [intros tz; reflexivity|].
  split; intros offset n Hoff;
    unfold Date.getDay, WeekDay, LocalTime, Zone.fixed, Day, MakeDate, msPerDay in *;
    zdiv.
Qed.

Lemma utc_midnight_cell_row_witness :
  Date.getDay (Zone.fixed (-18000000)) (MakeDate 19814 0) = 0 /\
  WeekDay (MakeDate 19814 0) = 1.
Proof.
  split; [|reflexivity].
  rewrite (proj1 (proj2 utc_midnight_cell_row) (-18000000) 19814
             ltac:(unfold msPerDay; lia)).
  reflexivity.
Defined.

(** Where clocks never shift, the year drawn from any start takes 53 or
    54 week columns. *)
Theorem year_takes_53_or_54_weeks (offset : Z) (start : Date.t) (fuel : nat) :
  (6 <= fuel)%nat ->
  let tz := Zone.fixed offset in
  exists fs,
    CalendarHeatmap.firstSunday fuel tz start = Some fs /\
    (HeatmapLayout.weeksNeeded fs (CalendarHeatmap.endDate tz start) = 53 \/
     HeatmapLayout.weeksNeeded fs (CalendarHeatmap.endDate tz start) = 54).
Proof.
  intros Hfuel. cbv zeta.
  set (tz := Zone.fixed offset).
  pose proof (GridFacts.fixed_regular offset start) as Hreg. fold tz in Hreg.
  destruct (HeatmapFacts.firstSunday_regular tz start fuel Hreg Hfuel) as (Hfs & _ & _).
  eexists. split; [exact Hfs|].
  pose proof (GridFacts.regular_start tz start Hreg) as Hstart.
  pose proof (TimeWithinDay_range (LocalTime tz start)) as Htod.
  unfold WeekDay.
  set (tod := TimeWithinDay (LocalTime tz start)) in *.
  set (n := Day (LocalTime tz start)) in *.
  clearbody tod n. subst start.
  destruct (GridFacts.endDate_span tz tod Htod
              (fun k => HeatmapProperties.wall_back_fixed offset tod k) n)
    as (m & -> & Hspan).
  assert (Hw : 0 <= (n + 4) mod 7 < 7) by (apply Z.mod_pos_bound; lia).
  unfold HeatmapLayout.weeksNeeded, HeatmapLayout.totalDays, HeatmapLayout.ceilDiv,
    Date.getTime, tz.
  rewrite !HeatmapFacts.wall_fixed. unfold msPerDay in *.
  set (w := (n + 4) mod 7) in *. clearbody w.
  replace (m * 86400000 + tod - offset - ((n - w) * 86400000 + tod - offset))
    with ((m - n + w) * 86400000) by lia.
  replace (- ((m - n + w) * 86400000)) with ((- (m - n + w)) * (24 * 60 * 60 * 1000)) by lia.
  rewrite Z.div_mul by lia.
  destruct Hspan; zdiv.
Qed.

Lemma year_takes_53_or_54_weeks_witness :
  exists fs,
    CalendarHeatmap.firstSunday 6 Zone.utc (Date.make Zone.utc 2024 0 1) = Some fs /\
    (HeatmapLayout.weeksNeeded fs
       (CalendarHeatmap.endDate Zone.utc (Date.make Zone.utc 2024 0 1)) = 53 \/
     HeatmapLayout.weeksNeeded fs
       (CalendarHeatmap.endDate Zone.utc (Date.make Zone.utc 2024 0 1)) = 54).
Proof.
  exact (year_takes_53_or_54_weeks 0 (Date.make Zone.utc 2024 0 1) 6 (le_n 6)).
Defined.

End InterfaceProperties.
